(** * express-mysql-api-server: admin service, RBAC listing and boundary layer

    A shallow embedding of
    - [dist/services/admin.service.js] (class [AdminService]),
    - [dist/middlewares/error.middleware.js] ([ErrorMiddleware]),
    - [src/controllers/admin.controller.ts] ([AdminController.getUsers]),
    - [src/controllers/permission.controller.ts]
      ([PermissionController.getPermissions]),
    - [prisma/schema.prisma] (models, unique keys and referential actions).

    Asynchronous service methods become computations in a state-and-exception
    monad over the relational store; values produced outside the program
    (bcrypt salts, cuid identifiers, the clock) are explicit arguments. *)

From Stdlib Require Import ZArith NArith String Ascii DecimalString DecimalN.
From stdpp Require Import base option list strings gmap.

Local Open Scope string_scope.
Local Open Scope Z_scope.

(** ** JavaScript values at the granularity the code inspects them *)

Module Js.

(** Truthiness of an optional string property: [undefined] and the empty
    string are falsy. *)
Definition truthy_string (v : option string) : bool :=
  match v with
  | Some s => negb (String.eqb s "")
  | None => false
  end.

(** [x || d] for a numeric property: [undefined] and [0] are falsy. *)
Definition or_number (x : option Z) (d : Z) : Z :=
  match x with
  | Some n => if n =? 0 then d else n
  | None => d
  end.

(** [x || d] for a string property. *)
Definition or_string (x : option string) (d : string) : string :=
  match x with
  | Some s => if String.eqb s "" then d else s
  | None => d
  end.

Definition upper_ascii (c : ascii) : ascii :=
  let n := nat_of_ascii c in
  if ((97 <=? n) && (n <=? 122))%nat then ascii_of_nat (n - 32) else c.

Definition lower_ascii (c : ascii) : ascii :=
  let n := nat_of_ascii c in
  if ((65 <=? n) && (n <=? 90))%nat then ascii_of_nat (n + 32) else c.

Fixpoint map_string (f : ascii → ascii) (s : string) : string :=
  match s with
  | EmptyString => EmptyString
  | String c s' => String (f c) (map_string f s')
  end.

(** [String.prototype.toUpperCase] / [toLowerCase] on ASCII text; bytes
    outside [a-z] / [A-Z] are left as they are. *)
Definition toUpperCase : string → string := map_string upper_ascii.
Definition toLowerCase : string → string := map_string lower_ascii.

(** [s.split(',')]: the pieces of [s] between separators; the empty string
    splits into one empty piece. *)
Fixpoint split_go (sep : ascii) (cur : string) (s : string) : list string :=
  match s with
  | EmptyString => [String.rev cur]
  | String c s' =>
      if Ascii.eqb c sep then String.rev cur :: split_go sep EmptyString s'
      else split_go sep (String c cur) s'
  end.
Definition split (sep : ascii) (s : string) : list string :=
  split_go sep EmptyString s.

(** Whether a string is made of ASCII characters only.  On such strings
    [toUpperCase] and [toLowerCase] above are the JavaScript methods. *)
Fixpoint is_ascii (s : string) : bool :=
  match s with
  | EmptyString => true
  | String c s' => (nat_of_ascii c <? 128)%nat && is_ascii s'
  end.

(** The decimal numeral a client sends for the natural number [n]: its
    digits, without sign, blanks or leading zeros. *)
Definition numeral (n : N) : string := NilEmpty.string_of_uint (N.to_uint n).

(** Whether [p] is a prefix of [s]. *)
Fixpoint starts_with (p s : string) : bool :=
  match p, s with
  | EmptyString, _ => true
  | String a p', String b s' => Ascii.eqb a b && starts_with p' s'
  | String _ _, EmptyString => false
  end.

(** [s.split(sep)] for a separator string that is not empty: the pieces
    between the occurrences of [sep], found from the left and not
    overlapping.  [skip] counts the characters of a separator just matched
    that are still to be passed over. *)
Fixpoint split_on_go (sep : string) (skip : nat) (cur : string) (s : string)
  : list string :=
  match s with
  | EmptyString => [String.rev cur]
  | String c s' =>
      match skip with
      | S k => split_on_go sep k cur s'
      | O =>
          if starts_with sep s
          then String.rev cur
                 :: split_on_go sep (Nat.pred (String.length sep))
                      EmptyString s'
          else split_on_go sep O (String c cur) s'
      end
  end.
Definition split_on (sep s : string) : list string :=
  split_on_go sep O EmptyString s.

End Js.

(** ** JavaScript numbers

    Numbers are IEEE doubles.  They are taken through an interface with the
    operations [getUsers] applies: [Number(s)] on a string, [x + y], and the
    double [of_int z] that is the integer [z]. *)
Record JsNumber := mkJsNumber {
  number : Type;
  of_int : Z → number;
  Number : string → number;
  plus : number → number → number
}.

(** What doubles guarantee on the integers they hold exactly (up to 2^53):
    a plain decimal numeral converts to its value, and a sum that stays in
    that range is the exact sum. *)
Definition JsNumber_sound (J : JsNumber) : Prop :=
  (∀ n : N, (n ≤ 2 ^ 53)%N →
     Number J (Js.numeral n) = of_int J (Z.of_N n))
  ∧ (∀ a b : Z, 0 ≤ a → 0 ≤ b → a + b ≤ 2 ^ 53 →
       plus J (of_int J a) (of_int J b) = of_int J (a + b)).

(** ** Errors

    A thrown object as the error middleware sees it: the optional [status]
    and [message] properties, and the [code] property that the storage
    client's request errors carry. *)

Record JsError := mkJsError {
  status : option Z;
  message : option string;
  code : option string
}.

(** [new HttpException(status, message)] *)
Definition HttpException (s : Z) (m : string) : JsError :=
  mkJsError (Some s) (Some m) None.

(** [new Error(message)] *)
Definition Error (m : string) : JsError := mkJsError None (Some m) None.

(** [PrismaClientKnownRequestError]: no [status], an error [code]. *)
Definition PrismaClientKnownRequestError (c m : string) : JsError :=
  mkJsError None (Some m) (Some c).

Definition P2002 : JsError :=
  PrismaClientKnownRequestError "P2002" "Unique constraint failed".
Definition P2003 : JsError :=
  PrismaClientKnownRequestError "P2003" "Foreign key constraint failed".
Definition P2025 : JsError :=
  PrismaClientKnownRequestError "P2025" "Record to update not found".

(** A domain-level error is one that carries an HTTP status of its own. *)
Definition is_domain_error (e : JsError) : bool :=
  match status e with Some _ => true | None => false end.

(** ** Data model (prisma/schema.prisma) *)

Module UserType.
Inductive t := admin | user.

(** The value as it travels in a query string or in JSON. *)
Definition name (x : t) : string :=
  match x with admin => "admin" | user => "user" end.
End UserType.

Global Instance UserType_eq_dec : EqDecision UserType.t.
Proof. solve_decision. Defined.

Module Admin.
Record t := mk {
  id : string;
  email : string;
  name : string;
  password : string;
  status : Z;
  isSystem : Z;
  createdAt : Z;
  updatedAt : Z
}.
End Admin.

Module Role.
Record t := mk {
  id : string;
  name : string;
  type : UserType.t;
  status : Z;
  isSystem : Z;
  createdAt : Z;
  updatedAt : Z
}.
End Role.

Module Permission.
Record t := mk {
  id : string;
  name : string;
  type : UserType.t;
  parentId : option string;
  createdAt : Z;
  updatedAt : Z
}.
End Permission.

Module ModelHasRole.
Record t := mk {
  id : string;
  roleId : string;
  modelId : string;
  modelType : UserType.t;
  createdAt : Z;
  updatedAt : Z
}.
End ModelHasRole.

Module RoleHasPermission.
Record t := mk {
  roleId : string;
  permissionId : string
}.
End RoleHasPermission.

(** The tables the modelled operations read or write. *)
Record Store := mkStore {
  admins : list Admin.t;
  roles : list Role.t;
  permissions : list Permission.t;
  modelHasRoles : list ModelHasRole.t;
  roleHasPermissions : list RoleHasPermission.t
}.

(** Referential actions of the schema's relations. *)
Inductive ReferentialAction := Cascade | Restrict | NoAction.

Record Relations := mkRelations {
  ModelHasRole_role : ReferentialAction;
  RoleHasPermission_role : ReferentialAction;
  RoleHasPermission_permission : ReferentialAction
}.

(** [role Role @relation(fields: [roleId], references: [id], onDelete: Cascade)]
    in [ModelHasRole] and [RoleHasPermission];
    [permission Permission @relation(..., onDelete: Cascade)]. *)
Definition schema : Relations :=
  {| ModelHasRole_role := Cascade;
     RoleHasPermission_role := Cascade;
     RoleHasPermission_permission := Cascade |}.

(** ** The monad of service methods: store state and thrown errors *)

Inductive Result (A : Type) :=
| Ok (a : A)
| Throw (e : JsError).
Arguments Ok {A} a.
Arguments Throw {A} e.

Definition Async (A : Type) : Type := Store → Result A * Store.

Global Instance Async_ret : MRet Async := λ A a st, (Ok a, st).
Global Instance Async_bind : MBind Async := λ A B f m st,
  match m st with
  | (Ok a, st') => f a st'
  | (Throw e, st') => (Throw e, st')
  end.
Definition throw {A} (e : JsError) : Async A := λ st, (Throw e, st).

(** ** Storage client

    The calls the services make on the generated Prisma client, with the
    constraints of the schema: [@id] and [@unique] keys, [@default] values,
    [@updatedAt], and the relations' referential actions.  String keys are
    compared exactly. *)

Module AdminCreateInput.
Record t := mk {
  id : option string;
  email : string;
  name : string;
  password : string;
  status : option Z;
  isSystem : option Z
}.
(** [delete data.id] *)
Definition delete_id (d : t) : t :=
  mk None (email d) (name d) (password d) (status d) (isSystem d).
(** [Object.assign(Object.assign({}, data), { password: p })] *)
Definition assign_password (d : t) (p : string) : t :=
  mk (id d) (email d) (name d) p (status d) (isSystem d).
End AdminCreateInput.

Module AdminUpdateInput.
(** The [data] of an update: any of the columns may be present, the id and
    the timestamps included. *)
Record t := make {
  id : option string;
  email : option string;
  name : option string;
  password : option string;
  status : option Z;
  isSystem : option Z;
  createdAt : option Z;
  updatedAt : option Z
}.
(** An update object that carries neither an id nor timestamps, such as
    [{ name, email }] and [{ password }]. *)
Abbreviation mk email name password status isSystem :=
  (make None email name password status isSystem None None).
End AdminUpdateInput.

Definition set_admins (f : list Admin.t → list Admin.t) (st : Store) : Store :=
  mkStore (f (admins st)) (roles st) (permissions st)
          (modelHasRoles st) (roleHasPermissions st).

Module prisma_admin.

(** [prisma.admin.findMany()] *)
Definition findMany : Async (list Admin.t) := λ st, (Ok (admins st), st).

(** [prisma.admin.findUnique({ where: { id } })] *)
Definition findUnique_id (i : string) : Async (option Admin.t) := λ st,
  (Ok (head (filter (λ a, Admin.id a = i) (admins st))), st).

(** [prisma.admin.findUnique({ where: { email } })] *)
Definition findUnique_email (e : string) : Async (option Admin.t) := λ st,
  (Ok (head (filter (λ a, Admin.email a = e) (admins st))), st).

(** The row an insert builds: [id] defaults to a fresh cuid, [status] to 1,
    [isSystem] to 0, both timestamps to the current time. *)
Definition new_row (data : AdminCreateInput.t) (cuid : string) (now : Z)
  : Admin.t :=
  Admin.mk (default cuid (AdminCreateInput.id data))
           (AdminCreateInput.email data)
           (AdminCreateInput.name data)
           (AdminCreateInput.password data)
           (default 1 (AdminCreateInput.status data))
           (default 0 (AdminCreateInput.isSystem data))
           now now.

(** [prisma.admin.create({ data })]: rejected with P2002 when the primary
    key or the unique email is already taken. *)
Definition create (data : AdminCreateInput.t) (cuid : string) (now : Z)
  : Async Admin.t := λ st,
  let row := new_row data cuid now in
  if decide (Exists (λ a, Admin.id a = Admin.id row
                          ∨ Admin.email a = Admin.email row) (admins st))
  then (Throw P2002, st)
  else (Ok row, set_admins (λ l, (l ++ [row])%list) st).

(** The row an update writes: the columns present in [data] replace the
    old values; [updatedAt] is the current time unless [data] sets it. *)
Definition apply_update (data : AdminUpdateInput.t) (now : Z) (a : Admin.t)
  : Admin.t :=
  Admin.mk (default (Admin.id a) (AdminUpdateInput.id data))
           (default (Admin.email a) (AdminUpdateInput.email data))
           (default (Admin.name a) (AdminUpdateInput.name data))
           (default (Admin.password a) (AdminUpdateInput.password data))
           (default (Admin.status a) (AdminUpdateInput.status data))
           (default (Admin.isSystem a) (AdminUpdateInput.isSystem data))
           (default (Admin.createdAt a) (AdminUpdateInput.createdAt data))
           (default now (AdminUpdateInput.updatedAt data)).

(** [prisma.admin.update({ where: { id }, data })]: P2025 when no row has
    the id, P2002 when the id or the email changes to one that a row
    already has. *)
Definition update (i : string) (data : AdminUpdateInput.t) (now : Z)
  : Async Admin.t := λ st,
  match head (filter (λ a, Admin.id a = i) (admins st)) with
  | None => (Throw P2025, st)
  | Some old =>
      let row := apply_update data now old in
      if decide ((Admin.id row ≠ Admin.id old
                  ∧ Exists (λ a, Admin.id a = Admin.id row) (admins st))
                 ∨ (Admin.email row ≠ Admin.email old
                    ∧ Exists (λ a, Admin.email a = Admin.email row)
                             (admins st)))
      then (Throw P2002, st)
      else (Ok row,
            set_admins
              (fmap (λ a, if decide (Admin.id a = i) then row else a)) st)
  end.

(** [prisma.admin.deleteMany({ where })]: removes the matching rows and
    reports how many there were. *)
Definition deleteMany (P : Admin.t → Prop) `{∀ a, Decision (P a)}
  : Async Z := λ st,
  (Ok (Z.of_nat (length (filter P (admins st)))),
   set_admins (filter (λ a, ¬ P a)) st).

End prisma_admin.

(** ** Password hashing primitive

    [hash data rounds salt] with the salt, which the library draws at
    random, made an argument; [compare data encrypted]. *)
Record Bcrypt := mkBcrypt {
  hash : string → Z → string → string;
  compare : string → string → bool
}.

(** A verifier accepts the hashes its own [hash] produces. *)
Definition Bcrypt_sound (B : Bcrypt) : Prop :=
  ∀ p r s, compare B p (hash B p r s) = true.

(** ** dist/services/admin.service.js *)

Module AdminService.

(** The [where] clause of [delete]:
    [{ id: { in: userIds }, isSystem: 0 }]. *)
Definition delete_where (userIds : list string) (a : Admin.t) : Prop :=
  Admin.id a ∈ userIds ∧ Admin.isSystem a = 0.

Global Instance delete_where_dec userIds a : Decision (delete_where userIds a).
Proof. unfold delete_where. apply _. Defined.

Section Service.

(** [bcrypt_1] is [require("bcrypt")], [bcryptjs_1] is
    [require("bcryptjs")]. *)
Variables bcrypt_1 bcryptjs_1 : Bcrypt.

Definition findAll : Async (list Admin.t) := prisma_admin.findMany.

Definition findById (userId : string) : Async Admin.t :=
  findUser ← prisma_admin.findUnique_id userId;
  match findUser with
  | None => throw (HttpException 409 "User doesn't exist")
  | Some findUser => mret findUser
  end.

Definition create (data : AdminCreateInput.t) (salt cuid : string) (now : Z)
  : Async Admin.t :=
  findUser ← prisma_admin.findUnique_email (AdminCreateInput.email data);
  if findUser is Some _ then
    throw (HttpException 409
             ("This email " +:+ AdminCreateInput.email data
                            +:+ " already exists"))
  else
    let hashedPassword :=
      hash bcrypt_1 (AdminCreateInput.password data) 10 salt in
    let data := AdminCreateInput.delete_id data in
    admin ← prisma_admin.create
              (AdminCreateInput.assign_password data hashedPassword) cuid now;
    mret admin.

(** The guard of [update]:
    [data.email && data.email.toLowerCase() !== findUser.email.toLowerCase()] *)
Definition email_changes (data : AdminUpdateInput.t) (findUser : Admin.t)
  : option string :=
  match AdminUpdateInput.email data with
  | Some e =>
      if Js.truthy_string (Some e)
         && negb (String.eqb (Js.toLowerCase e)
                             (Js.toLowerCase (Admin.email findUser)))
      then Some e else None
  | None => None
  end.

Definition update (userId : string) (data : AdminUpdateInput.t) (now : Z)
  : Async Admin.t :=
  findUser ← prisma_admin.findUnique_id userId;
  match findUser with
  | None =>
      throw (HttpException 404 ("User with ID " +:+ userId +:+ " not found"))
  | Some findUser =>
      _ ← (match email_changes data findUser with
           | Some e =>
               existingUserWithEmail ← prisma_admin.findUnique_email e;
               if existingUserWithEmail is Some _ then
                 throw (HttpException 409
                          ("Email " +:+ e
                                    +:+ " is already in use by another user"))
               else mret ()
           | None => mret ()
           end);
      prisma_admin.update userId data now
  end.

Definition delete (userIds : list string) : Async bool :=
  result_count ← prisma_admin.deleteMany (delete_where userIds);
  if result_count =? 0 then throw (HttpException 409 "User doesn't exist")
  else mret true.

Definition updateProfile (adminId name email : string) (now : Z)
  : Async Admin.t :=
  prisma_admin.update adminId
    (AdminUpdateInput.mk (Some email) (Some name) None None None) now.

Definition updatePassword (adminId currentPassword newPassword salt : string)
  (now : Z) : Async unit :=
  admin ← prisma_admin.findUnique_id adminId;
  match admin with
  | None => throw (Error "Admin not found")
  | Some admin =>
      let isMatch := compare bcryptjs_1 currentPassword (Admin.password admin) in
      if negb isMatch then throw (Error "Current password is incorrect")
      else
        let isNewMatch :=
          compare bcryptjs_1 newPassword (Admin.password admin) in
        if isNewMatch then
          throw (Error "New password is already used in the past")
        else
          let hashedPassword := hash bcryptjs_1 newPassword 10 salt in
          _ ← prisma_admin.update adminId
                (AdminUpdateInput.mk None None (Some hashedPassword) None None)
                now;
          mret ()
  end.

Definition updatePasswordWithoutCurrent (adminId newPassword salt : string)
  (now : Z) : Async unit :=
  admin ← prisma_admin.findUnique_id adminId;
  match admin with
  | None => throw (Error "Admin not found")
  | Some admin =>
      let isNewMatch :=
        compare bcryptjs_1 newPassword (Admin.password admin) in
      if isNewMatch then
        throw (Error "New password is already used in the past")
      else
        let hashedPassword := hash bcryptjs_1 newPassword 10 salt in
        _ ← prisma_admin.update adminId
              (AdminUpdateInput.mk None None (Some hashedPassword) None None)
              now;
        mret ()
  end.

End Service.
End AdminService.

(** The keys the schema declares unique on the admin table: [id] ([@id])
    and [email] ([@unique]). *)
Definition unique_keys (st : Store) : Prop :=
  NoDup (Admin.id <$> admins st) ∧ NoDup (Admin.email <$> admins st).

(** ** Role deletion under the schema's referential actions *)

Module prisma_role.

(** Whether referencing rows stop the deletion of the rows they reference. *)
Definition blocks {X} (a : ReferentialAction) (children : list X) : bool :=
  match a, children with
  | Cascade, _ => false
  | _, [] => false
  | _, _ :: _ => true
  end.

(** [prisma.role.deleteMany({ where })] under the relations [rel]: a
    [Cascade] relation deletes the join rows that reference a deleted role,
    any other action rejects the statement (P2003) while such rows exist. *)
Definition deleteMany (rel : Relations) (P : Role.t → Prop)
  `{∀ r, Decision (P r)} : Async Z := λ st,
  let deleted := filter P (roles st) in
  let ids := Role.id <$> deleted in
  let mhr := filter (λ x, ModelHasRole.roleId x ∈ ids) (modelHasRoles st) in
  let rhp := filter (λ x, RoleHasPermission.roleId x ∈ ids)
                    (roleHasPermissions st) in
  if blocks (ModelHasRole_role rel) mhr
     || blocks (RoleHasPermission_role rel) rhp
  then (Throw P2003, st)
  else
    (Ok (Z.of_nat (length deleted)),
     mkStore (admins st)
             (filter (λ r, ¬ P r) (roles st))
             (permissions st)
             (filter (λ x, ModelHasRole.roleId x ∉ ids) (modelHasRoles st))
             (filter (λ x, RoleHasPermission.roleId x ∉ ids)
                     (roleHasPermissions st))).

End prisma_role.

Module prisma_permission.

(** [prisma.permission.deleteMany({ where })] under the relations [rel]:
    the [RoleHasPermission] rows of a deleted permission go with it when the
    relation cascades, and stop the deletion (P2003) otherwise. *)
Definition deleteMany (rel : Relations) (P : Permission.t → Prop)
  `{∀ p, Decision (P p)} : Async Z := λ st,
  let deleted := filter P (permissions st) in
  let ids := Permission.id <$> deleted in
  let rhp := filter (λ x, RoleHasPermission.permissionId x ∈ ids)
                    (roleHasPermissions st) in
  if prisma_role.blocks (RoleHasPermission_permission rel) rhp
  then (Throw P2003, st)
  else
    (Ok (Z.of_nat (length deleted)),
     mkStore (admins st)
             (roles st)
             (filter (λ p, ¬ P p) (permissions st))
             (modelHasRoles st)
             (filter (λ x, RoleHasPermission.permissionId x ∉ ids)
                     (roleHasPermissions st))).

End prisma_permission.

(** Every join row points at a role that exists. *)
Definition no_dangling (st : Store) : Prop :=
  (∀ x, x ∈ modelHasRoles st →
        ∃ r, r ∈ roles st ∧ Role.id r = ModelHasRole.roleId x)
  ∧ (∀ x, x ∈ roleHasPermissions st →
          ∃ r, r ∈ roles st ∧ Role.id r = RoleHasPermission.roleId x).

(** ** Services injected into the permission controller *)

Module PermissionService.
Record t := mk {
  findAll : string → Async (list Permission.t);
  findAllRoleHasPermissions : Async (list RoleHasPermission.t)
}.
End PermissionService.

Module RoleService.
Record t := mk {
  findAll : string → Async (list Role.t)
}.
End RoleService.

(** Modelled from the spec: [services/permission.service.ts] is not among
    the sources.  [findAll(type)] "returns all Permissions of
    [subjectType]"; [findAllRoleHasPermissions()] is called without an
    argument and is read as its name says, every row of the join table. *)
Definition permissionService : PermissionService.t :=
  PermissionService.mk
    (λ type st,
       (Ok (filter (λ p, UserType.name (Permission.type p) = type)
                   (permissions st)), st))
    (λ st, (Ok (roleHasPermissions st), st)).

(** Modelled from the spec: [services/role.service.ts] is not among the
    sources.  [findAll(type)] "returns all Roles of [subjectType]". *)
Definition roleService : RoleService.t :=
  RoleService.mk
    (λ type st,
       (Ok (filter (λ r, UserType.name (Role.type r) = type) (roles st)), st)).

(** ** The HTTP boundary *)

(** A response body: the JSON [{ data, message }] or [{ message, status }],
    or the page that the framework's default error handler writes. *)
Inductive Body (D : Type) :=
| DataMessage (data : D) (message : string)
| MessageStatus (message : string) (status : Z)
| DefaultErrorPage.
Arguments DataMessage {D} data message.
Arguments MessageStatus {D} message status.
Arguments DefaultErrorPage {D}.

(** A response as sent: its status code and its body. *)
Record Response (D : Type) := mkResponse {
  statusCode : Z;
  body : Body D
}.
Arguments mkResponse {D} statusCode body.
Arguments statusCode {D} r.
Arguments body {D} r.

(** What a controller method does with the request: it sends a response or
    passes an error to [next]. *)
Inductive Handled (D : Type) :=
| Responded (r : Response D)
| Next (e : JsError).
Arguments Responded {D} r.
Arguments Next {D} e.

(** [try { ... } catch (error) { next(error); }] *)
Definition try_catch {D} (m : Async (Response D))
  : Store → Handled D * Store := λ st,
  match m st with
  | (Ok r, st') => (Responded r, st')
  | (Throw e, st') => (Next e, st')
  end.

(** [new RangeError(message)] *)
Definition RangeError (m : string) : JsError := mkJsError None (Some m) None.

(** [res.status(code).json(body)] with a computed [code]: the response is
    sent when the code is a three-digit integer, and a [RangeError] is
    thrown when it is not. *)
Definition res_status_json {D} (code : Z) (b : Body D)
  : Result (Response D) :=
  if (100 <=? code) && (code <=? 999) then Ok (mkResponse code b)
  else Throw (RangeError ("Invalid status code: "
                            +:+ NilZero.string_of_int (Z.to_int code))).

(** dist/middlewares/error.middleware.js *)
Definition ErrorMiddleware {D} (error : JsError) : Handled D :=
  let status := Js.or_number (status error) 500 in
  let message := Js.or_string (message error) "Something went wrong" in
  match res_status_json status (MessageStatus message status) with
  | Ok r => Responded r
  | Throw error => Next error
  end.

(** The framework's default error handler, which answers when the error
    middleware has itself called [next(error)]: the error's own status when
    that is a 4xx or a 5xx, 500 otherwise, with a page of its own. *)
Definition finalhandler {D} (e : JsError) : Response D :=
  mkResponse
    (match status e with
     | Some s => if (400 <=? s) && (s <=? 599) then s else 500
     | None => 500
     end)
    DefaultErrorPage.

(** The response the client receives: the controller's own, or, when the
    controller called [next(error)], the error middleware's, or, when that
    in turn called [next(error)], the default handler's. *)
Definition respond {D} (h : Handled D) : Response D :=
  match h with
  | Responded r => r
  | Next e =>
      match ErrorMiddleware e with
      | Responded r => r
      | Next e' => finalhandler e'
      end
  end.

(** ** src/controllers/permission.controller.ts *)

Module PermissionController.

Record Data := mkData {
  data_permissions : list Permission.t;
  data_roles : list Role.t;
  data_roleHasPermissions : list RoleHasPermission.t
}.

Section Controller.

(** [Container.get(PermissionService)], [Container.get(RoleService)] *)
Variable permission : PermissionService.t.
Variable role : RoleService.t.

(** [type] is [req.query.type]. *)
Definition getPermissions (type : option string)
  : Store → Handled Data * Store :=
  try_catch
    (if negb (Js.truthy_string type) then
       throw (HttpException 422 "Type is Required")
     else
       let type := default "" type in
       permissions ← PermissionService.findAll permission type;
       roleHasPermissions ←
         PermissionService.findAllRoleHasPermissions permission;
       roles ← RoleService.findAll role type;
       mret (mkResponse 200
               (DataMessage (mkData permissions roles roleHasPermissions)
                            "findAll"))).

End Controller.
End PermissionController.

(** ** src/controllers/admin.controller.ts *)

Module AdminController.

Section Numbers.
Variable J : JsNumber.

Record IFindAllPaginateOptions := mkOptions {
  pageNumber : number J;
  perPage : number J;
  filters : gmap string string;
  q : option string;
  ignoreGlobal : list string;
  sort : string;
  order : string
}.

(** [Number(x)] where [x] is a destructured query parameter with a numeric
    default: the parameter's string when it is present, the default (already
    a number) when it is absent. *)
Definition Number_or (v : option string) (d : Z) : number J :=
  match v with
  | Some s => Number J s
  | None => of_int J d
  end.

(** The [options] object [getUsers] builds from [req.query].
    [String(x)] is the identity on the strings involved. *)
Definition options (query : gmap string string) : IFindAllPaginateOptions :=
  let pageNumber := query !! "pageNumber" in
  let perPage := query !! "perPage" in
  let sort := default "createdAt" (query !! "sort") in
  let order := default "ASC" (query !! "order") in
  let filters :=
    delete "order" (delete "sort" (delete "perPage"
      (delete "pageNumber" query))) in
  mkOptions
    (plus J (Number_or pageNumber 0) (of_int J 1))
    (Number_or perPage 10)
    filters
    (query !! "q")
    (match query !! "ignoreGlobal" with
     | Some s => Js.split "," s
     | None => []
     end)
    sort
    (Js.toUpperCase order).

Section Controller.

(** [this.admin.findAllPaginate], inherited from the base service. *)
Context {IDataTable : Type}.
Variable findAllPaginate : IFindAllPaginateOptions → Async IDataTable.

Definition getUsers (query : gmap string string)
  : Store → Handled IDataTable * Store :=
  try_catch
    (findAllUsersData ← findAllPaginate (options query);
     mret (mkResponse 200 (DataMessage findAllUsersData "findAll"))).

End Controller.
End Numbers.

Arguments mkOptions {J} _ _ _ _ _ _ _.
Arguments pageNumber {J} _.
Arguments perPage {J} _.
Arguments filters {J} _.
Arguments q {J} _.
Arguments ignoreGlobal {J} _.
Arguments sort {J} _.
Arguments order {J} _.

Section Account.

(** [Container.get(AdminService)], with the two hashing libraries the
    service requires. *)
Variables bcrypt_1 bcryptjs_1 : Bcrypt.

(** Reading [(req.user as Admin).id] when [req.user] is undefined throws a
    [TypeError], which the surrounding [try] catches. *)
Definition user_id (user : option Admin.t) : Async string :=
  match user with
  | Some u => mret (Admin.id u)
  | None =>
      throw (Error "Cannot read properties of undefined (reading 'id')")
  end.


(** [name], [email] are the properties of [req.body]. *)
Definition updateProfile (user : option Admin.t) (name email : string)
  (now : Z) : Store → Handled (option Admin.t) * Store :=
  try_catch
    (adminId ← user_id user;
     updatedAdmin ← AdminService.updateProfile adminId name email now;
     mret (mkResponse 200
             (DataMessage (Some updatedAdmin) "Profile updated successfully"))).

Definition updatePassword (user : option Admin.t)
  (currentPassword newPassword salt : string) (now : Z)
  : Store → Handled (option Admin.t) * Store :=
  try_catch
    (adminId ← user_id user;
     _ ← AdminService.updatePassword bcryptjs_1 adminId currentPassword
           newPassword salt now;
     mret (mkResponse 200 (DataMessage None "Password updated successfully"))).

(** [userId] is [req.params.id]. *)
Definition getUserById (userId : string)
  : Store → Handled (option Admin.t) * Store :=
  try_catch
    (findOneUserData ← AdminService.findById userId;
     mret (mkResponse 200 (DataMessage (Some findOneUserData) "findOne"))).

(** [userData] is [req.body]. *)
Definition createUser (userData : AdminCreateInput.t) (salt cuid : string)
  (now : Z) : Store → Handled (option Admin.t) * Store :=
  try_catch
    (createUserData ← AdminService.create bcrypt_1 userData salt cuid now;
     mret (mkResponse 201 (DataMessage (Some createUserData) "created"))).

Definition updateUser (userId : string) (userData : AdminUpdateInput.t)
  (now : Z) : Store → Handled (option Admin.t) * Store :=
  try_catch
    (updateUserData ← AdminService.update userId userData now;
     mret (mkResponse 200 (DataMessage (Some updateUserData) "updated"))).

(** [userIds] is [req.body.ids]. *)
Definition deleteUser (userIds : list string)
  : Store → Handled (option Admin.t) * Store :=
  try_catch
    (_ ← AdminService.delete userIds;
     mret (mkResponse 200 (DataMessage None "deleted"))).

End Account.
End AdminController.

(** ** src/middlewares/auth.middleware.ts *)

Module auth_middleware.

(** What [getAuthorization] returns: a string, [undefined] or [null]. *)
Inductive Authorization :=
| token (s : string)
| undefined
| null.

(** [cookie] is [req.cookies['Authorization']], [header] is
    [req.header('Authorization')]. *)
Definition getAuthorization (cookie header : option string) : Authorization :=
  if Js.truthy_string cookie then token (default "" cookie)
  else if Js.truthy_string header then
    match Js.split_on "Bearer " (default "" header) !! 1%nat with
    | Some t => token t
    | None => undefined
    end
  else null.

End auth_middleware.

(** ** Sample data on which the definitions are evaluated *)

Module Sample.

(** A stand-in for the hashing primitive: deterministic, and sound in the
    sense of [Bcrypt_sound]. *)
Definition bcrypt : Bcrypt :=
  mkBcrypt (λ p _ _, "$2b$10$" +:+ p)
           (λ p h, String.eqb ("$2b$10$" +:+ p) h).

Definition root : Admin.t :=
  Admin.mk "a0" "root@example.com" "Root" "$2b$10$root-secret" 1 1 100 100.
Definition alice : Admin.t :=
  Admin.mk "a1" "alice@example.com" "Alice" "$2b$10$first-pass" 1 0 101 101.
Definition bob : Admin.t :=
  Admin.mk "a2" "bob@example.com" "Bob" "$2b$10$bob-secret" 1 0 102 102.
Definition carol : Admin.t :=
  Admin.mk "a3" "carol@example.com" "Carol" "$2b$10$carol-secret" 1 2 103 103.

Definition editor : Role.t :=
  Role.mk "r1" "editor" UserType.admin 1 0 100 100.
Definition member : Role.t :=
  Role.mk "r2" "member" UserType.user 1 0 100 100.

Definition manage : Permission.t :=
  Permission.mk "p1" "manage" UserType.admin None 100 100.
Definition view : Permission.t :=
  Permission.mk "p2" "view" UserType.user None 100 100.

Definition store : Store :=
  mkStore [root; alice; bob; carol]
          [editor; member]
          [manage; view]
          [ModelHasRole.mk "m1" "r1" "a1" UserType.admin 100 100;
           ModelHasRole.mk "m2" "r2" "u1" UserType.user 100 100]
          [RoleHasPermission.mk "r1" "p1"; RoleHasPermission.mk "r2" "p2"].

Definition newcomer : AdminCreateInput.t :=
  AdminCreateInput.mk (Some "chosen-by-client") "dave@example.com" "Dave"
                      "plain-text" None None.

Definition query : gmap string string :=
  {[ "pageNumber" := "2"; "order" := "desc"; "status" := "1" ]}.

(** A stand-in for the numbers: exact integers, [None] for what is not a
    plain decimal numeral; sound in the sense of [JsNumber_sound]. *)
Definition numbers : JsNumber :=
  mkJsNumber (option Z) Some
    (λ s, Z.of_uint <$> NilEmpty.uint_of_string s)
    (λ x y, match x, y with
            | Some a, Some b => Some (a + b)
            | _, _ => None
            end).

End Sample.

(** * Properties *)

(** ** The JavaScript helpers on examples *)

Example toUpperCase_desc : Js.toUpperCase "desc" = "DESC".
Proof. reflexivity. Qed.

Example toLowerCase_mixed :
  Js.toLowerCase "Bob@Example.COM" = "bob@example.com".
Proof. reflexivity. Qed.

Example split_fields : Js.split "," "email,name" = ["email"; "name"].
Proof. reflexivity. Qed.

Example split_empty : Js.split "," "" = [""].
Proof. reflexivity. Qed.

(** ** Lookups by key *)

Section Lookup.
Context {A : Type} (P : A → Prop) `{∀ x, Decision (P x)}.

Lemma head_filter_Some (l : list A) (a : A) :
  head (filter P l) = Some a → P a ∧ a ∈ l.
Proof.
  intros E. apply (list_elem_of_filter P l a).
  destruct (filter P l) as [|b k]; simplify_eq/=. left.
Qed.

Lemma head_filter_None (l : list A) :
  head (filter P l) = None ↔ ∀ x, x ∈ l → ¬ P x.
Proof.
  split.
  - intros E x Hx HP.
    assert (x ∈ filter P l) as Hin by (apply list_elem_of_filter; done).
    destruct (filter P l); [by apply elem_of_nil in Hin | done].
  - intros Hn. destruct (filter P l) as [|b k] eqn:F; [done|].
    assert (b ∈ filter P l) as Hin by (rewrite F; left).
    apply list_elem_of_filter in Hin as [HP Hb]. by destruct (Hn b).
Qed.

Lemma head_filter_is_Some (l : list A) (a : A) :
  a ∈ l → P a → is_Some (head (filter P l)).
Proof.
  intros Ha HP. destruct (head (filter P l)) eqn:E; [by eexists|].
  rewrite head_filter_None in E. by destruct (E a).
Qed.

End Lookup.

Ltac run_async :=
  unfold mbind, Async_bind, mret, Async_ret, throw; cbn beta iota.

(** ** Creating an admin *)

Section Create.
Variable bcrypt_1 : Bcrypt.

(** The lookup by email decides whether [create] writes at all. *)
Lemma create_unfold data salt cuid now st :
  AdminService.create bcrypt_1 data salt cuid now st =
  match head (filter (λ a, Admin.email a = AdminCreateInput.email data)
                     (admins st)) with
  | Some _ =>
      (Throw (HttpException 409
                ("This email " +:+ AdminCreateInput.email data
                               +:+ " already exists")), st)
  | None =>
      prisma_admin.create
        (AdminCreateInput.assign_password (AdminCreateInput.delete_id data)
           (hash bcrypt_1 (AdminCreateInput.password data) 10 salt))
        cuid now st
  end.
Proof.
  unfold AdminService.create, prisma_admin.findUnique_email. run_async.
  destruct (head _); [done|].
  destruct (prisma_admin.create _ _ _ _) as [[]]; done.
Qed.

(** C7. Creating an admin whose email equals the email of an existing admin
    fails with the 409 conflict error, and the store is left as it was: no
    row is added. *)
Theorem create_duplicate_email_conflict data salt cuid now st :
  (∃ a, a ∈ admins st ∧ Admin.email a = AdminCreateInput.email data) →
  AdminService.create bcrypt_1 data salt cuid now st =
    (Throw (HttpException 409
              ("This email " +:+ AdminCreateInput.email data
                             +:+ " already exists")), st).
Proof.
  intros (a & Ha & Hemail). rewrite create_unfold.
  destruct (head_filter_is_Some
              (λ x, Admin.email x = AdminCreateInput.email data)
              (admins st) a Ha Hemail) as [b ->].
  done.
Qed.

(** A create succeeds as soon as the email is free and the generated
    identifier is fresh. *)
Lemma create_succeeds data salt cuid now st :
  (∀ a, a ∈ admins st → Admin.email a ≠ AdminCreateInput.email data) →
  (∀ a, a ∈ admins st → Admin.id a ≠ cuid) →
  ∃ a, AdminService.create bcrypt_1 data salt cuid now st =
         (Ok a, set_admins (λ l, (l ++ [a])%list) st).
Proof.
  intros Hemail Hid. rewrite create_unfold.
  assert (head (filter (λ a, Admin.email a = AdminCreateInput.email data)
                       (admins st)) = None) as ->.
  { apply head_filter_None. done. }
  unfold prisma_admin.create. cbn zeta.
  destruct (decide _) as [Hex|_]; [|by eexists].
  apply Exists_exists in Hex as (a & Ha & [E|E]); cbn in E.
  - by destruct (Hid a Ha).
  - by destruct (Hemail a Ha).
Qed.

(** C10. When [create] succeeds, the row it persists holds the bcrypt hash
    of [data.password] in its password field, and its identifier is the one
    the store generated, whatever [id] the caller put in [data]. *)
Theorem create_persists_hash_and_generated_id data salt cuid now st a st' :
  AdminService.create bcrypt_1 data salt cuid now st = (Ok a, st') →
  admins st' = (admins st ++ [a])%list
  ∧ Admin.password a = hash bcrypt_1 (AdminCreateInput.password data) 10 salt
  ∧ Admin.id a = cuid
  ∧ Admin.email a = AdminCreateInput.email data
  ∧ ∀ i, AdminService.create bcrypt_1
           (AdminCreateInput.mk i (AdminCreateInput.email data)
              (AdminCreateInput.name data) (AdminCreateInput.password data)
              (AdminCreateInput.status data) (AdminCreateInput.isSystem data))
           salt cuid now st = (Ok a, st').
Proof.
  intros E. assert (E' := E). rewrite create_unfold in E'.
  destruct (head _) eqn:Hhead; [done|].
  unfold prisma_admin.create in E'. cbn zeta in E'.
  destruct (decide _); [done|]. injection E' as <- <-.
  repeat split; try done.
Qed.

End Create.

Lemma create_duplicate_email_conflict_witness :
  AdminService.create Sample.bcrypt
    (AdminCreateInput.mk None "bob@example.com" "Bobby" "hunter22" None None)
    "salt" "ck01" 200 Sample.store
  = (Throw (HttpException 409 "This email bob@example.com already exists"),
     Sample.store).
Proof.
  apply (create_duplicate_email_conflict Sample.bcrypt
           (AdminCreateInput.mk None "bob@example.com" "Bobby" "hunter22"
              None None) "salt" "ck01" 200 Sample.store).
  exists Sample.bob. split; [|reflexivity].
  simpl. do 2 right. left.
Defined.

Lemma create_persists_hash_and_generated_id_witness :
  let a := Admin.mk "ck01" "dave@example.com" "Dave" "$2b$10$plain-text"
                    1 0 200 200 in
  AdminService.create Sample.bcrypt Sample.newcomer "salt" "ck01" 200
    Sample.store = (Ok a, set_admins (λ l, (l ++ [a])%list) Sample.store)
  ∧ Admin.password a
    = hash Sample.bcrypt (AdminCreateInput.password Sample.newcomer) 10 "salt"
  ∧ Admin.id a = "ck01".
Proof.
  intros a.
  assert (AdminService.create Sample.bcrypt Sample.newcomer "salt" "ck01" 200
            Sample.store
          = (Ok a, set_admins (λ l, (l ++ [a])%list) Sample.store)) as E
    by (vm_compute; reflexivity).
  destruct (create_persists_hash_and_generated_id Sample.bcrypt
              Sample.newcomer "salt" "ck01" 200 Sample.store a _ E)
    as (_ & Hpw & Hid & _).
  split; [exact E|]. split; [exact Hpw | exact Hid].
Defined.

(** ** Bulk delete of admins *)

Section Filter.
Context {A : Type} (P : A → Prop) `{∀ x, Decision (P x)}.

Lemma filter_none (l : list A) : (∀ x, x ∈ l → ¬ P x) → filter P l = [].
Proof.
  intros Hn. destruct (filter P l) as [|b k] eqn:F; [done|].
  assert (b ∈ filter P l) as Hin by (rewrite F; left).
  apply list_elem_of_filter in Hin as [HP Hb]. by destruct (Hn b).
Qed.

Lemma filter_all (l : list A) : (∀ x, x ∈ l → P x) → filter P l = l.
Proof.
  induction l as [|a l IH]; intros Hall; [done|].
  rewrite filter_cons_True by (apply Hall; left).
  f_equal. apply IH. intros x Hx. apply Hall. by right.
Qed.

Lemma length_filter_zero (l : list A) :
  length (filter P l) = 0%nat ↔ ¬ Exists P l.
Proof.
  rewrite Exists_exists. split.
  - intros Hlen (x & Hx & HP).
    assert (x ∈ filter P l) as Hin by (apply list_elem_of_filter; done).
    destruct (filter P l); [by apply elem_of_nil in Hin | done].
  - intros Hn. rewrite filter_none; [done|]. intros x Hx HP. apply Hn. eauto.
Qed.

End Filter.

(** C3, as the code has it.  Bulk delete removes exactly the rows whose id
    is in the set and whose [isSystem] flag is 0, and touches no other
    table; when no row qualifies it throws the 409 error and the store is
    as before, otherwise it returns [true]; a row with [isSystem = 1] is
    never removed. *)
Theorem delete_removes_unflagged_rows (userIds : list string) (st : Store) :
  let st' := set_admins (filter (λ a, ¬ AdminService.delete_where userIds a)) st in
  AdminService.delete userIds st =
    (if decide (Exists (AdminService.delete_where userIds) (admins st))
     then Ok true
     else Throw (HttpException 409 "User doesn't exist"), st')
  ∧ (∀ a, a ∈ admins st' ↔ a ∈ admins st ∧ ¬ AdminService.delete_where userIds a)
  ∧ (∀ a, a ∈ admins st → Admin.isSystem a = 1 → a ∈ admins st')
  ∧ (¬ Exists (AdminService.delete_where userIds) (admins st) → st' = st).
Proof.
  intros st'. split; [|split; [|split]].
  - unfold AdminService.delete, prisma_admin.deleteMany. run_async.
    fold st'.
    pose proof (length_filter_zero (AdminService.delete_where userIds) (admins st)) as Hz.
    destruct (decide (Exists _ _)) as [Hex|Hex].
    + destruct (Z.eqb_spec
                  (Z.of_nat (length (filter (AdminService.delete_where userIds)
                                            (admins st)))) 0)
        as [E|_]; [|done].
      destruct Hz as [Hz _]. destruct Hz; [lia | done].
    + destruct Hz as [_ Hz]. by rewrite (Hz Hex).
  - intros a. subst st'. cbn. rewrite list_elem_of_filter. tauto.
  - intros a Ha Hsys. subst st'. cbn. apply list_elem_of_filter.
    split; [|done]. intros [_ Hz]. lia.
  - intros Hn. subst st'. unfold set_admins. destruct st as [ad ro pe mh rh].
    cbn in *. f_equal. apply filter_all. intros x Hx Hd. apply Hn.
    apply Exists_exists. eauto.
Qed.

(** C3 as worded fails on a flag value other than 0 and 1: Carol's row has
    [isSystem = 2], her id is in the set, and the row is still there after
    the delete, which reports that nothing was deleted. *)
Lemma delete_keeps_row_flagged_2 :
  let out := AdminService.delete ["a3"] Sample.store in
  Admin.id Sample.carol ∈ ["a3"]
  ∧ Admin.isSystem Sample.carol ≠ 1
  ∧ Sample.carol ∈ admins out.2
  ∧ out = (Throw (HttpException 409 "User doesn't exist"), Sample.store).
Proof.
  cbn zeta. split; [left|]. split; [done|]. split.
  - vm_compute. do 3 right. left.
  - vm_compute. reflexivity.
Qed.

Lemma delete_removes_unflagged_rows_witness :
  AdminService.delete ["a0"; "a1"; "zz"] Sample.store
  = (Ok true,
     set_admins (λ _, [Sample.root; Sample.bob; Sample.carol]) Sample.store)
  ∧ Sample.root ∈ admins (AdminService.delete ["a0"; "a1"; "zz"] Sample.store).2.
Proof.
  destruct (delete_removes_unflagged_rows ["a0"; "a1"; "zz"] Sample.store)
    as (E & _ & Hsys & _).
  rewrite E. split; [vm_compute; reflexivity|].
  apply Hsys; [left | reflexivity].
Defined.

(** ** Changing a password *)

Lemma update_head_filter (i : string) (row : Admin.t) (l : list Admin.t)
    (old : Admin.t) :
  Admin.id row = i →
  head (filter (λ a, Admin.id a = i) l) = Some old →
  head (filter (λ a, Admin.id a = i)
               ((λ a, if decide (Admin.id a = i) then row else a) <$> l))
  = Some row.
Proof.
  intros Hrow. induction l as [|a l IH]; [done|].
  rewrite fmap_cons. destruct (decide (Admin.id a = i)) as [E|E].
  - intros _. by rewrite filter_cons_True.
  - rewrite !filter_cons_False by done. exact IH.
Qed.

Section UpdatePassword.
Variable bcryptjs_1 : Bcrypt.

Lemma updatePassword_unfold adminId currentPassword newPassword salt now st :
  AdminService.updatePassword bcryptjs_1 adminId currentPassword newPassword
    salt now st =
  match head (filter (λ a, Admin.id a = adminId) (admins st)) with
  | None => (Throw (Error "Admin not found"), st)
  | Some admin =>
      if negb (compare bcryptjs_1 currentPassword (Admin.password admin))
      then (Throw (Error "Current password is incorrect"), st)
      else if compare bcryptjs_1 newPassword (Admin.password admin)
      then (Throw (Error "New password is already used in the past"), st)
      else
        let row :=
          prisma_admin.apply_update
            (AdminUpdateInput.mk None None
               (Some (hash bcryptjs_1 newPassword 10 salt)) None None)
            now admin in
        (Ok (),
         set_admins
           (fmap (λ a, if decide (Admin.id a = adminId) then row else a)) st)
  end.
Proof.
  unfold AdminService.updatePassword, prisma_admin.findUnique_id. run_async.
  destruct (head _) as [admin|] eqn:Hhead; [|done].
  destruct (compare bcryptjs_1 currentPassword _); [|done]. cbn [negb].
  destruct (compare bcryptjs_1 newPassword _); [done|].
  unfold prisma_admin.update. rewrite Hhead. cbn zeta.
  destruct (decide _) as [[[Hne _]|[Hne _]]|_]; [by destruct Hne..|done].
Qed.

(** C4, as the code has it.  With a correct current password: a new
    password that verifies against the stored hash (the current password
    itself, in particular) is refused with the plain error "New password is
    already used in the past" and the store is untouched; a new password
    that does not verify against the stored hash is accepted, and the
    admin's stored hash becomes the hash of the new password, which differs
    from the old one. *)
Theorem updatePassword_compares_with_stored_hash
    adminId currentPassword newPassword salt now st admin :
  Bcrypt_sound bcryptjs_1 →
  head (filter (λ a, Admin.id a = adminId) (admins st)) = Some admin →
  compare bcryptjs_1 currentPassword (Admin.password admin) = true →
  let out := AdminService.updatePassword bcryptjs_1 adminId currentPassword
               newPassword salt now st in
  let refused :=
    (Throw (Error "New password is already used in the past"), st) in
  (newPassword = currentPassword → out = refused)
  ∧ (compare bcryptjs_1 newPassword (Admin.password admin) = true →
     out = refused)
  ∧ (compare bcryptjs_1 newPassword (Admin.password admin) = false →
     ∃ st' admin',
       out = (Ok (), st')
       ∧ head (filter (λ a, Admin.id a = adminId) (admins st')) = Some admin'
       ∧ Admin.password admin' = hash bcryptjs_1 newPassword 10 salt
       ∧ Admin.password admin' ≠ Admin.password admin).
Proof.
  intros Hsound Hhead Hcur out refused. subst out refused.
  rewrite updatePassword_unfold, Hhead, Hcur. cbn [negb].
  split; [|split].
  - intros ->. by rewrite Hcur.
  - by intros ->.
  - intros Hnew. rewrite Hnew. cbn zeta. eexists _, _.
    split; [reflexivity|]. split; [|split].
    + cbn. apply update_head_filter with (old := admin); [|done].
      cbn. eapply head_filter_Some in Hhead as [Hid _]. exact Hid.
    + done.
    + cbn. intros E. rewrite <- E, Hsound in Hnew. done.
Qed.

End UpdatePassword.

Lemma Sample_bcrypt_sound : Bcrypt_sound Sample.bcrypt.
Proof. intros p r s. cbn. apply String.eqb_refl. Defined.

Lemma updatePassword_compares_with_stored_hash_witness :
  AdminService.updatePassword Sample.bcrypt "a1" "first-pass" "first-pass"
    "salt" 200 Sample.store
  = (Throw (Error "New password is already used in the past"), Sample.store).
Proof.
  apply (updatePassword_compares_with_stored_hash Sample.bcrypt
           "a1" "first-pass" "first-pass" "salt" 200 Sample.store Sample.alice
           Sample_bcrypt_sound eq_refl eq_refl).
  reflexivity.
Defined.

(** C4 as worded fails twice.  Reusing the current password is refused with
    a plain [Error], which carries no status and leaves the boundary as a
    500, not as the 409 conflict error; and the password that was replaced
    by the last change is accepted again, since only the stored hash is
    compared. *)
Lemma updatePassword_accepts_previous_password :
  let first_change :=
    AdminService.updatePassword Sample.bcrypt "a1" "first-pass" "second-pass"
      "salt" 200 Sample.store in
  let back_again :=
    AdminService.updatePassword Sample.bcrypt "a1" "second-pass" "first-pass"
      "salt" 201 first_change.2 in
  let reuse :=
    AdminService.updatePassword Sample.bcrypt "a1" "first-pass" "first-pass"
      "salt" 200 Sample.store in
  first_change.1 = Ok ()
  ∧ back_again.1 = Ok ()
  ∧ Admin.password <$> head (filter (λ a, Admin.id a = "a1")
                                    (admins back_again.2))
    = Some (hash Sample.bcrypt "first-pass" 10 "salt")
  ∧ reuse.1 = Throw (Error "New password is already used in the past")
  ∧ status (Error "New password is already used in the past") ≠ Some 409
  ∧ statusCode (respond (D := unit)
                  (Next (Error "New password is already used in the past")))
    = 500.
Proof. vm_compute. repeat split; done. Qed.

(** ** Email uniqueness on the write paths *)

Lemma update_unfold userId data now st :
  AdminService.update userId data now st =
  match head (filter (λ a, Admin.id a = userId) (admins st)) with
  | None =>
      (Throw (HttpException 404 ("User with ID " +:+ userId +:+ " not found")),
       st)
  | Some findUser =>
      match AdminService.email_changes data findUser with
      | Some e =>
          match head (filter (λ a, Admin.email a = e) (admins st)) with
          | Some _ =>
              (Throw (HttpException 409
                        ("Email " +:+ e
                                  +:+ " is already in use by another user")),
               st)
          | None => prisma_admin.update userId data now st
          end
      | None => prisma_admin.update userId data now st
      end
  end.
Proof.
  unfold AdminService.update, prisma_admin.findUnique_id,
    prisma_admin.findUnique_email.
  run_async. destruct (head _); [|done].
  destruct (AdminService.email_changes _ _); [|done].
  run_async. destruct (head _); done.
Qed.

(** X6. [update] looks the new email up and raises the domain-level
    conflict before it writes: when [data] carries a non-empty email that
    differs, letter case aside, from the admin's own (both of ASCII
    characters) and some admin has that email, the result is the 409 "Email
    ... is already in use by another user" and the store is as before,
    whatever else [data] carries. *)
Lemma update_email_in_use_conflict userId data now st findUser e other :
  head (filter (λ a, Admin.id a = userId) (admins st)) = Some findUser →
  AdminUpdateInput.email data = Some e →
  e ≠ "" →
  Js.is_ascii e = true → Js.is_ascii (Admin.email findUser) = true →
  Js.toLowerCase e ≠ Js.toLowerCase (Admin.email findUser) →
  other ∈ admins st → Admin.email other = e →
  AdminService.update userId data now st =
    (Throw (HttpException 409
              ("Email " +:+ e +:+ " is already in use by another user")), st).
Proof.
  intros Hhead He Hne _ _ Hcase Hin Hemail.
  assert (AdminService.email_changes data findUser = Some e) as Hch.
  { unfold AdminService.email_changes. rewrite He. cbn.
    destruct (String.eqb_spec e ""); [done|].
    by destruct (String.eqb_spec (Js.toLowerCase e)
                   (Js.toLowerCase (Admin.email findUser))). }
  rewrite update_unfold, Hhead, Hch.
  destruct (head_filter_is_Some (λ x, Admin.email x = e) (admins st) other
              Hin Hemail) as [b ->].
  done.
Qed.

(** X16. [updateProfile] is the storage update and nothing else: whatever
    it throws is a storage error (record not found, or unique constraint),
    never an error with an HTTP status, and the store is then as before. *)
Lemma updateProfile_throws_storage_errors adminId name email now st e st' :
  AdminService.updateProfile adminId name email now st = (Throw e, st') →
  (e = P2025 ∨ e = P2002) ∧ is_domain_error e = false ∧ st' = st.
Proof.
  unfold AdminService.updateProfile, prisma_admin.update.
  destruct (head _); [|intros [= <- <-]; auto].
  cbn zeta. destruct (decide _); intros [= <- <-]; auto.
Qed.

(** C6 at the failing input.  Alice changes her profile email to Bob's:
    [updateProfile] makes no lookup of its own, the write goes to the store,
    and what comes back is the store's unique-constraint error (P2002), which
    has no HTTP status and reaches the client as a 500. *)
Theorem updateProfile_relies_on_storage_uniqueness :
  AdminService.updateProfile "a1" "Alice" "bob@example.com" 200 Sample.store
  = prisma_admin.update "a1"
      (AdminUpdateInput.mk (Some "bob@example.com") (Some "Alice")
         None None None) 200 Sample.store
  ∧ AdminService.updateProfile "a1" "Alice" "bob@example.com" 200 Sample.store
    = (Throw P2002, Sample.store)
  ∧ is_domain_error P2002 = false
  ∧ statusCode (respond (D := Admin.t) (Next P2002)) = 500.
Proof. split; [reflexivity|]. vm_compute. repeat split; done. Qed.

(** ** Deleting roles *)

Section RoleDelete.
Context (P : Role.t → Prop) `{∀ r, Decision (P r)}.

(** C5. Under the schema's relations a role deletion always goes through,
    it removes the roles selected, and afterwards no [ModelHasRole] row and
    no [RoleHasPermission] row references the id of a deleted role; join
    rows that pointed at an existing role before still do so after. *)
Theorem role_delete_cascades (st : Store) :
  ∃ n st',
    prisma_role.deleteMany schema P st = (Ok n, st')
    ∧ roles st' = filter (λ r, ¬ P r) (roles st)
    ∧ (∀ r, r ∈ roles st → P r →
         (∀ x, x ∈ modelHasRoles st' → ModelHasRole.roleId x ≠ Role.id r)
         ∧ (∀ x, x ∈ roleHasPermissions st' →
              RoleHasPermission.roleId x ≠ Role.id r))
    ∧ (no_dangling st → no_dangling st').
Proof.
  eexists _, _. split; [reflexivity|]. split; [reflexivity|]. cbn.
  assert (∀ r, r ∈ roles st → P r → Role.id r ∈ Role.id <$> filter P (roles st))
    as Hids.
  { intros r Hr HP. apply list_elem_of_fmap. exists r. split; [done|].
    by apply list_elem_of_filter. }
  split.
  - intros r Hr HP. split; intros x [Hx _]%list_elem_of_filter E;
      apply Hx; rewrite E; by apply Hids.
  - intros [Hm Hp]. split; intros x [Hx Hin]%list_elem_of_filter.
    + destruct (Hm x Hin) as (r & Hr & E). exists r. split; [|done].
      apply list_elem_of_filter. split; [|done].
      intros HP. apply Hx. rewrite <- E. by apply Hids.
    + destruct (Hp x Hin) as (r & Hr & E). exists r. split; [|done].
      apply list_elem_of_filter. split; [|done].
      intros HP. apply Hx. rewrite <- E. by apply Hids.
Qed.

End RoleDelete.

(** The cascade is what lets the deletion through: were the
    [ModelHasRole] relation declared [Restrict], deleting a role that is
    still bound to a subject would be rejected and nothing would change. *)
Example role_delete_under_restrict :
  prisma_role.deleteMany (mkRelations Restrict Cascade Cascade)
    (λ r, Role.id r ∈ ["r1"]) Sample.store
  = (Throw P2003, Sample.store).
Proof. vm_compute. reflexivity. Qed.

Lemma Sample_store_no_dangling : no_dangling Sample.store.
Proof.
  split; intros x Hx; cbn in Hx;
    repeat (apply elem_of_cons in Hx as [->|Hx]);
    try (by apply elem_of_nil in Hx).
  - exists Sample.editor. split; [left | done].
  - exists Sample.member. split; [right; left | done].
  - exists Sample.editor. split; [left | done].
  - exists Sample.member. split; [right; left | done].
Defined.

Lemma role_delete_cascades_witness :
  ∃ st',
    prisma_role.deleteMany schema (λ r, Role.id r ∈ ["r1"]) Sample.store
    = (Ok 1, st')
    ∧ roles st' = [Sample.member]
    ∧ ModelHasRole.roleId <$> modelHasRoles st' = ["r2"]
    ∧ RoleHasPermission.roleId <$> roleHasPermissions st' = ["r2"]
    ∧ no_dangling st'.
Proof.
  destruct (role_delete_cascades (λ r, Role.id r ∈ ["r1"]) Sample.store)
    as (n & st' & E & _ & _ & Hd).
  exists st'. specialize (Hd Sample_store_no_dangling).
  vm_compute in E. injection E as <- <-.
  repeat split; try reflexivity; apply Hd.
Defined.

(** ** The error middleware *)

(** C9. For every error that reaches the middleware with a status that can
    be sent (none, zero, or a three-digit code), the response body is the
    envelope [{ message, status }] and the HTTP status code is the [status]
    of that envelope; the code is the error's own status when it has one,
    and 500 when it has none (or a zero one); the message is the error's own
    when it has one, and "Something went wrong" when it has none (or an
    empty one).  Nothing else of the error is sent. *)
Theorem ErrorMiddleware_envelope {D : Type} (error : JsError) :
  100 ≤ Js.or_number (status error) 500 ≤ 999 →
  ∃ r,
    ErrorMiddleware (D := D) error = Responded r
    ∧ respond (Next error) = r
    ∧ body r = MessageStatus
                 (Js.or_string (message error) "Something went wrong")
                 (statusCode r)
    ∧ (∀ s, status error = Some s → s ≠ 0 → statusCode r = s)
    ∧ (status error = None ∨ status error = Some 0 → statusCode r = 500)
    ∧ (∀ m, message error = Some m → m ≠ "" →
         body r = MessageStatus m (statusCode r))
    ∧ (message error = None ∨ message error = Some "" →
         body r = MessageStatus "Something went wrong" (statusCode r))
    ∧ (∀ c, ErrorMiddleware (D := D)
              (mkJsError (status error) (message error) c) = Responded r).
Proof.
  destruct error as [s m c]. cbn [status message]. intros Hrange.
  assert ((100 <=? Js.or_number s 500) && (Js.or_number s 500 <=? 999) = true)
    as Hok by (apply andb_true_iff; split; apply Z.leb_le; lia).
  eexists. unfold respond, ErrorMiddleware, res_status_json.
  cbn [status message]. rewrite Hok.
  split; [reflexivity|]. split; [reflexivity|]. cbn. repeat split.
  - intros s' -> Hs. cbn. by destruct (Z.eqb_spec s' 0).
  - by intros [-> | ->].
  - intros m' -> Hm. cbn. by destruct (String.eqb_spec m' "").
  - by intros [-> | ->].
Qed.

Lemma ErrorMiddleware_envelope_witness :
  ErrorMiddleware (D := unit) (HttpException 409 "User doesn't exist")
  = Responded (mkResponse 409 (MessageStatus "User doesn't exist" 409))
  ∧ ErrorMiddleware (D := unit) (mkJsError None None None)
    = Responded (mkResponse 500 (MessageStatus "Something went wrong" 500)).
Proof.
  destruct (ErrorMiddleware_envelope (D := unit)
              (HttpException 409 "User doesn't exist") ltac:(cbn; lia))
    as (r & E & _ & _ & Hs & _ & Hm & _).
  destruct (ErrorMiddleware_envelope (D := unit) (mkJsError None None None)
              ltac:(cbn; lia))
    as (r0 & E0 & _ & _ & _ & Hs0 & _ & Hm0 & _).
  specialize (Hs 409 eq_refl ltac:(lia)).
  specialize (Hm "User doesn't exist" eq_refl ltac:(discriminate)).
  specialize (Hs0 (or_introl eq_refl)).
  specialize (Hm0 (or_introl eq_refl)).
  rewrite E, E0. split.
  - destruct r as [c b]. cbn in *. by subst.
  - destruct r0 as [c b]. cbn in *. by subst.
Defined.

(** ** Listing permissions and roles *)

Lemma UserType_name_inj (t u : UserType.t) :
  UserType.name t = UserType.name u ↔ t = u.
Proof. split; [by destruct t, u | by intros ->]. Qed.

Lemma UserType_name_truthy (t : UserType.t) :
  Js.truthy_string (Some (UserType.name t)) = true.
Proof. by destruct t. Qed.

(** Whatever the injected services are, the rows of the join table are
    fetched by a call that is not given the type. *)
Lemma getPermissions_unfold permission role (type : string) st :
  Js.truthy_string (Some type) = true →
  PermissionController.getPermissions permission role (Some type) st =
  try_catch
    (permissions ← PermissionService.findAll permission type;
     roleHasPermissions ←
       PermissionService.findAllRoleHasPermissions permission;
     roles ← RoleService.findAll role type;
     mret (mkResponse 200
             (DataMessage
                (PermissionController.mkData permissions roles
                   roleHasPermissions) "findAll"))) st.
Proof.
  intros Ht. unfold PermissionController.getPermissions. by rewrite Ht.
Qed.

(** C1, as the code has it.  For a recognized type [t] the listing answers
    200 with the permissions whose type is [t], the roles whose type is [t],
    and every row of the role-permission join table, of whichever role; the
    store is not modified. *)
Theorem getPermissions_snapshot (t : UserType.t) (st : Store) :
  PermissionController.getPermissions permissionService roleService
    (Some (UserType.name t)) st =
  (Responded
     (mkResponse 200
        (DataMessage
           (PermissionController.mkData
              (filter (λ p, Permission.type p = t) (permissions st))
              (filter (λ r, Role.type r = t) (roles st))
              (roleHasPermissions st))
           "findAll")), st).
Proof.
  rewrite getPermissions_unfold by apply UserType_name_truthy.
  unfold try_catch. cbn.
  do 5 f_equal; apply list_filter_iff; intros x; apply UserType_name_inj.
Qed.

(** C1 as worded fails: the snapshot for type [admin] contains the join row
    of the role "member", whose type is [user]. *)
Lemma getPermissions_lists_rows_of_other_type :
  ∃ d,
    (PermissionController.getPermissions permissionService roleService
       (Some "admin") Sample.store).1
    = Responded (mkResponse 200 (DataMessage d "findAll"))
    ∧ RoleHasPermission.mk "r2" "p2"
      ∈ PermissionController.data_roleHasPermissions d
    ∧ Sample.member ∈ roles Sample.store
    ∧ Role.id Sample.member = "r2"
    ∧ Role.type Sample.member = UserType.user
    ∧ Sample.member ∉ PermissionController.data_roles d.
Proof.
  eexists. split; [vm_compute; reflexivity|]. cbn.
  split; [right; left|]. split; [right; left|]. do 2 (split; [done|]).
  intros Hin. apply list_elem_of_singleton in Hin. discriminate Hin.
Qed.

(** X29. Whatever the injected services are, a missing or empty [type] is
    refused before any of them is called: the error is the 422 "Type is
    Required", the store is untouched, and the client receives
    [{ message, status }] with no data.  A non-empty [type] is not examined
    further by the controller: it is handed as it is to the three service
    calls, whose results make the 200 answer. *)
Theorem getPermissions_requires_type permission role (st : Store) :
  (∀ type, type = None ∨ type = Some "" →
     PermissionController.getPermissions permission role type st
     = (Next (HttpException 422 "Type is Required"), st))
  ∧ respond (D := PermissionController.Data)
      (Next (HttpException 422 "Type is Required"))
    = mkResponse 422 (MessageStatus "Type is Required" 422)
  ∧ (∀ s, s ≠ "" →
       PermissionController.getPermissions permission role (Some s) st
       = try_catch
           (permissions ← PermissionService.findAll permission s;
            roleHasPermissions ←
              PermissionService.findAllRoleHasPermissions permission;
            roles ← RoleService.findAll role s;
            mret (mkResponse 200
                    (DataMessage
                       (PermissionController.mkData permissions roles
                          roleHasPermissions) "findAll"))) st).
Proof.
  assert (∀ s, s ≠ "" → Js.truthy_string (Some s) = true) as Ht.
  { intros s Hs. cbn. by destruct (String.eqb_spec s ""). }
  split; [|split].
  - by intros type [-> | ->].
  - reflexivity.
  - intros s Hs. by rewrite getPermissions_unfold by auto.
Qed.

Lemma getPermissions_requires_type_witness :
  PermissionController.getPermissions permissionService roleService None
    Sample.store
  = (Next (HttpException 422 "Type is Required"), Sample.store)
  ∧ PermissionController.getPermissions permissionService roleService
      (Some "") Sample.store
    = (Next (HttpException 422 "Type is Required"), Sample.store).
Proof.
  destruct (getPermissions_requires_type permissionService roleService
              Sample.store) as (Hmissing & _ & _).
  split; apply Hmissing; [by left | by right].
Defined.

(** X30. An error whose status cannot be sent (neither absent, nor zero,
    nor a three-digit code) gets no envelope from the middleware: sending
    throws, and the middleware hands the error thrown, which has no status,
    to [next]. *)
Theorem ErrorMiddleware_unsendable_status {D : Type} (error : JsError) :
  ¬ (100 ≤ Js.or_number (status error) 500 ≤ 999) →
  (∃ thrown, ErrorMiddleware (D := D) error = Next thrown
             ∧ status thrown = None)
  ∧ (∀ r, ErrorMiddleware (D := D) error ≠ Responded r).
Proof.
  intros Hrange. unfold ErrorMiddleware, res_status_json.
  assert ((100 <=? Js.or_number (status error) 500)
          && (Js.or_number (status error) 500 <=? 999) = false) as ->.
  { apply andb_false_iff.
    destruct (Z.leb_spec 100 (Js.or_number (status error) 500)); [|by left].
    destruct (Z.leb_spec (Js.or_number (status error) 500) 999); [|by right].
    destruct Hrange. lia. }
  split; [by eexists | done].
Qed.

Lemma ErrorMiddleware_unsendable_status_witness :
  ∃ thrown,
    ErrorMiddleware (D := unit) (HttpException 1000 "Out of range")
    = Next thrown
    ∧ status thrown = None.
Proof.
  destruct (ErrorMiddleware_unsendable_status (D := unit)
              (HttpException 1000 "Out of range")) as [Hnext _].
  - cbn. lia.
  - exact Hnext.
Defined.

(** ** Query normalization in [getUsers] *)

Lemma Sample_numbers_sound : JsNumber_sound Sample.numbers.
Proof.
  split.
  - intros n _. cbn. unfold Js.numeral. rewrite NilEmpty.usu. cbn.
    unfold Z.of_uint. f_equal. f_equal. apply DecimalN.Unsigned.of_to.
  - by intros a b _ _ _.
Defined.

Section GetUsers.
Variable J : JsNumber.
Context {IDataTable : Type}.
Variable findAllPaginate :
  AdminController.IFindAllPaginateOptions J → Async IDataTable.

(** C8. [getUsers] calls [findAllPaginate] once, with options built from the
    query: the page number is [Number(pageNumber) + 1], with 0 for an absent
    parameter, and [perPage] is [Number(perPage)], with 10 for an absent
    one.  On doubles this makes the page 1 when the parameter is absent and
    [n + 1] for the 0-based numeral [n] below 2^53.  [sort] is "createdAt"
    and [order] is "ASC" when the parameter is absent; a supplied order
    (of ASCII characters) is upper-cased. *)
Theorem getUsers_normalizes_query (query : gmap string string) (st : Store) :
  JsNumber_sound J →
  let o := AdminController.options J query in
  AdminController.getUsers J findAllPaginate query st =
    try_catch
      (data ← findAllPaginate o;
       mret (mkResponse 200 (DataMessage data "findAll"))) st
  ∧ AdminController.pageNumber o
    = plus J (AdminController.Number_or J (query !! "pageNumber") 0)
        (of_int J 1)
  ∧ AdminController.perPage o
    = AdminController.Number_or J (query !! "perPage") 10
  ∧ (query !! "pageNumber" = None → AdminController.pageNumber o = of_int J 1)
  ∧ (∀ n, (n < 2 ^ 53)%N → query !! "pageNumber" = Some (Js.numeral n) →
       AdminController.pageNumber o = of_int J (Z.of_N n + 1))
  ∧ (query !! "perPage" = None → AdminController.perPage o = of_int J 10)
  ∧ (∀ n, (n ≤ 2 ^ 53)%N → query !! "perPage" = Some (Js.numeral n) →
       AdminController.perPage o = of_int J (Z.of_N n))
  ∧ (query !! "sort" = None → AdminController.sort o = "createdAt")
  ∧ (∀ s, query !! "sort" = Some s → AdminController.sort o = s)
  ∧ (query !! "order" = None → AdminController.order o = "ASC")
  ∧ (∀ s, query !! "order" = Some s → Js.is_ascii s = true →
       AdminController.order o = Js.toUpperCase s).
Proof.
  intros [Hnum Hplus]. cbn zeta. unfold AdminController.options. cbn.
  repeat split.
  - intros ->. cbn. by rewrite Hplus.
  - intros n Hn ->. cbn. rewrite Hnum by lia. rewrite Hplus; [done|lia..].
  - by intros ->.
  - intros n Hn ->. cbn. by rewrite Hnum.
  - by intros ->.
  - by intros s ->.
  - by intros ->.
  - by intros s -> _.
Qed.

End GetUsers.

Lemma getUsers_normalizes_query_witness :
  AdminController.options Sample.numbers Sample.query
  = AdminController.mkOptions (J := Sample.numbers) (Some 3) (Some 10)
      {[ "status" := "1" ]} None [] "createdAt" "DESC".
Proof.
  destruct (getUsers_normalizes_query Sample.numbers (λ _, mret ())
              Sample.query Sample.store Sample_numbers_sound)
    as (_ & _ & _ & _ & Hpage & Hper & _ & Hsort & _ & _ & Horder).
  specialize (Hpage 2%N ltac:(done) eq_refl). specialize (Hper eq_refl).
  specialize (Hsort eq_refl). specialize (Horder "desc" eq_refl eq_refl).
  destruct (AdminController.options Sample.numbers Sample.query)
    as [pn pp fl q ig so od] eqn:E.
  cbn in Hpage, Hper, Hsort, Horder. subst.
  assert (fl = {[ "status" := "1" ]} ∧ q = None ∧ ig = []) as (-> & -> & ->);
    [|reflexivity].
  apply (f_equal (λ o, (AdminController.filters o, AdminController.q o,
                        AdminController.ignoreGlobal o))) in E.
  vm_compute in E. injection E as <- <- <-. repeat split.
Defined.

(** * Further properties of the admin service *)

(** ** Finding an admin by id *)

Lemma findById_unfold userId st :
  AdminService.findById userId st =
  match head (filter (λ a, Admin.id a = userId) (admins st)) with
  | Some findUser => (Ok findUser, st)
  | None => (Throw (HttpException 409 "User doesn't exist"), st)
  end.
Proof.
  unfold AdminService.findById, prisma_admin.findUnique_id. run_async.
  by destruct (head _).
Qed.

(** X1. [findById] answers with a stored row bearing the id when there is
    one, and with the 409 "User doesn't exist" when there is none; in both
    cases the store is as before. *)
Theorem findById_found_or_conflict (userId : string) (st : Store) :
  ((∃ a, a ∈ admins st ∧ Admin.id a = userId) →
     ∃ a, AdminService.findById userId st = (Ok a, st)
          ∧ a ∈ admins st ∧ Admin.id a = userId)
  ∧ ((∀ a, a ∈ admins st → Admin.id a ≠ userId) →
       AdminService.findById userId st
       = (Throw (HttpException 409 "User doesn't exist"), st)).
Proof.
  rewrite findById_unfold. split.
  - intros (a & Ha & Hid).
    destruct (head_filter_is_Some (λ x, Admin.id x = userId) (admins st) a
                Ha Hid) as [b Hb].
    rewrite Hb. exists b. split; [done|].
    apply head_filter_Some in Hb as [? ?]. done.
  - intros Hno.
    assert (head (filter (λ a, Admin.id a = userId) (admins st)) = None) as ->
      by (apply head_filter_None; done).
    done.
Qed.

Lemma findById_found_or_conflict_witness :
  AdminService.findById "a2" Sample.store = (Ok Sample.bob, Sample.store)
  ∧ AdminService.findById "zz" Sample.store
    = (Throw (HttpException 409 "User doesn't exist"), Sample.store).
Proof.
  split.
  - destruct (findById_found_or_conflict "a2" Sample.store) as [Hfound _].
    destruct Hfound as (a & E & _ & _).
    + exists Sample.bob. split; [do 2 right; left | reflexivity].
    + rewrite E. vm_compute in E. by injection E as <-.
  - destruct (findById_found_or_conflict "zz" Sample.store) as [_ Hnone].
    apply Hnone. intros a Ha. cbn in Ha.
    repeat (apply elem_of_cons in Ha as [->|Ha]); try discriminate.
    by apply elem_of_nil in Ha.
Defined.

(** ** What a successful create leaves behind *)

Lemma head_filter_snoc {A} (P : A → Prop) `{∀ x, Decision (P x)}
    (l : list A) (x : A) :
  (∀ y, y ∈ l → ¬ P y) → P x → head (filter P (l ++ [x])%list) = Some x.
Proof.
  intros Hl Hx. rewrite filter_app, (filter_none P l Hl).
  cbn. by rewrite decide_True.
Qed.

Lemma create_Ok_inv bcrypt_1 data salt cuid now st a st' :
  AdminService.create bcrypt_1 data salt cuid now st = (Ok a, st') →
  st' = set_admins (λ l, (l ++ [a])%list) st
  ∧ Admin.id a = cuid
  ∧ Admin.email a = AdminCreateInput.email data
  ∧ (∀ x, x ∈ admins st → Admin.id x ≠ cuid)
  ∧ (∀ x, x ∈ admins st → Admin.email x ≠ AdminCreateInput.email data).
Proof.
  rewrite create_unfold. destruct (head _) eqn:Hhead; [done|].
  unfold prisma_admin.create. cbn zeta.
  destruct (decide _) as [|Hno]; [done|]. intros [= <- <-].
  repeat split; try done.
  - intros x Hx E. apply Hno, Exists_exists. exists x. auto.
  - intros x Hx E. apply Hno, Exists_exists. exists x. auto.
Qed.

Section AfterCreate.
Variable bcrypt_1 : Bcrypt.

(** X2. A row that [create] has just returned is the one [findById] finds
    under its id, and the one a lookup by its email finds. *)
Theorem create_then_find data salt cuid now st a st' :
  AdminService.create bcrypt_1 data salt cuid now st = (Ok a, st') →
  AdminService.findById (Admin.id a) st' = (Ok a, st')
  ∧ prisma_admin.findUnique_email (AdminCreateInput.email data) st'
    = (Ok (Some a), st').
Proof.
  intros (-> & Hid & Hemail & Hids & Hemails)%create_Ok_inv.
  rewrite findById_unfold. unfold prisma_admin.findUnique_email. cbn.
  rewrite !head_filter_snoc; try done.
  - intros y Hy. rewrite Hid. by apply Hids.
Qed.

(** X3. Once [create] has succeeded for an email, every later [create] with
    that email is refused with the 409 conflict and changes nothing,
    whatever the other fields are. *)
Theorem create_same_email_again data salt cuid now st a st'
    data' salt' cuid' now' :
  AdminService.create bcrypt_1 data salt cuid now st = (Ok a, st') →
  AdminCreateInput.email data' = AdminCreateInput.email data →
  AdminService.create bcrypt_1 data' salt' cuid' now' st' =
    (Throw (HttpException 409
              ("This email " +:+ AdminCreateInput.email data
                             +:+ " already exists")), st').
Proof.
  intros (-> & Hid & Hemail & Hids & Hemails)%create_Ok_inv Hsame.
  rewrite create_unfold, Hsame. cbn.
  rewrite head_filter_snoc; done.
Qed.

(** X4. [create] keeps ids and emails unique: whatever its outcome, a store
    whose admin ids and emails were pairwise distinct still has them so. *)
Theorem create_keeps_unique_keys data salt cuid now st :
  unique_keys st →
  unique_keys (AdminService.create bcrypt_1 data salt cuid now st).2.
Proof.
  intros [Hids Hemails].
  destruct (AdminService.create bcrypt_1 data salt cuid now st) as [[a|e] st']
    eqn:E.
  - apply create_Ok_inv in E as (-> & Hid & Hemail & Hfresh & Hfree).
    split; cbn; rewrite fmap_app; apply NoDup_app; cbn.
    + split; [done|]. split; [|apply NoDup_singleton].
      intros i (x & -> & Hx)%list_elem_of_fmap Hi.
      apply list_elem_of_singleton in Hi. apply (Hfresh x Hx). congruence.
    + split; [done|]. split; [|apply NoDup_singleton].
      intros i (x & -> & Hx)%list_elem_of_fmap Hi.
      apply list_elem_of_singleton in Hi. apply (Hfree x Hx). congruence.
  - rewrite create_unfold in E. destruct (head _).
    + by injection E as <- <-.
    + unfold prisma_admin.create in E. cbn zeta in E.
      destruct (decide _); [|done]. by injection E as <- <-.
Qed.

End AfterCreate.

Lemma Sample_store_unique_keys : unique_keys Sample.store.
Proof. split; by apply (bool_decide_unpack _). Defined.

Lemma Sample_create_newcomer :
  let a := Admin.mk "ck01" "dave@example.com" "Dave" "$2b$10$plain-text"
                    1 0 200 200 in
  AdminService.create Sample.bcrypt Sample.newcomer "salt" "ck01" 200
    Sample.store = (Ok a, set_admins (λ l, (l ++ [a])%list) Sample.store).
Proof. vm_compute. reflexivity. Defined.

Lemma create_then_find_witness :
  let a := Admin.mk "ck01" "dave@example.com" "Dave" "$2b$10$plain-text"
                    1 0 200 200 in
  let st' := set_admins (λ l, (l ++ [a])%list) Sample.store in
  AdminService.findById "ck01" st' = (Ok a, st')
  ∧ prisma_admin.findUnique_email "dave@example.com" st' = (Ok (Some a), st').
Proof.
  exact (create_then_find Sample.bcrypt Sample.newcomer "salt" "ck01" 200
           Sample.store _ _ Sample_create_newcomer).
Defined.

Lemma create_same_email_again_witness :
  let a := Admin.mk "ck01" "dave@example.com" "Dave" "$2b$10$plain-text"
                    1 0 200 200 in
  let st' := set_admins (λ l, (l ++ [a])%list) Sample.store in
  AdminService.create Sample.bcrypt
    (AdminCreateInput.mk None "dave@example.com" "David" "other-pass"
       None None) "pepper" "ck02" 201 st'
  = (Throw (HttpException 409 "This email dave@example.com already exists"),
     st').
Proof.
  exact (create_same_email_again Sample.bcrypt Sample.newcomer "salt" "ck01"
           200 Sample.store _ _
           (AdminCreateInput.mk None "dave@example.com" "David" "other-pass"
              None None) "pepper" "ck02" 201
           Sample_create_newcomer eq_refl).
Defined.

Lemma create_keeps_unique_keys_witness :
  unique_keys
    (AdminService.create Sample.bcrypt Sample.newcomer "salt" "ck01" 200
       Sample.store).2.
Proof.
  exact (create_keeps_unique_keys Sample.bcrypt Sample.newcomer "salt" "ck01"
           200 Sample.store Sample_store_unique_keys).
Defined.

(** ** Updating an admin *)

Lemma prisma_update_inv i data now st r st' :
  prisma_admin.update i data now st = (r, st') →
  (r = Throw P2025 ∧ st' = st
   ∧ ∀ a, a ∈ admins st → Admin.id a ≠ i)
  ∨ (∃ old, head (filter (λ a, Admin.id a = i) (admins st)) = Some old
       ∧ r = Throw P2002 ∧ st' = st
       ∧ (Admin.id (prisma_admin.apply_update data now old) ≠ Admin.id old
          ∨ Admin.email (prisma_admin.apply_update data now old)
            ≠ Admin.email old))
  ∨ (∃ old, head (filter (λ a, Admin.id a = i) (admins st)) = Some old
       ∧ r = Ok (prisma_admin.apply_update data now old)
       ∧ st' = set_admins
                 (fmap (λ a, if decide (Admin.id a = i)
                             then prisma_admin.apply_update data now old
                             else a)) st
       ∧ (Admin.id (prisma_admin.apply_update data now old) = Admin.id old
          ∨ ∀ x, x ∈ admins st →
              Admin.id x ≠ Admin.id (prisma_admin.apply_update data now old))
       ∧ (Admin.email (prisma_admin.apply_update data now old)
          = Admin.email old
          ∨ ∀ x, x ∈ admins st →
              Admin.email x
              ≠ Admin.email (prisma_admin.apply_update data now old))).
Proof.
  unfold prisma_admin.update.
  destruct (head _) as [old|] eqn:Hhead.
  - cbn zeta. destruct (decide _) as [Hclash|Hno]; intros [= <- <-].
    + right. left. exists old. repeat split; try done.
      destruct Hclash as [[? _]|[? _]]; auto.
    + right. right. exists old. repeat split; try done.
      * destruct (decide (Admin.id (prisma_admin.apply_update data now old)
                          = Admin.id old)) as [|Hne]; [by left|].
        right. intros x Hx E. apply Hno. left. split; [done|].
        apply Exists_exists. eauto.
      * destruct (decide (Admin.email (prisma_admin.apply_update data now old)
                          = Admin.email old)) as [|Hne]; [by left|].
        right. intros x Hx E. apply Hno. right. split; [done|].
        apply Exists_exists. eauto.
  - intros [= <- <-]. left. repeat split; try done.
    exact (proj1 (head_filter_None (λ a, Admin.id a = i) (admins st)) Hhead).
Qed.

Section Replace.
Variables (i : string) (row : Admin.t).

Let replace := λ a : Admin.t, if decide (Admin.id a = i) then row else a.

Lemma replace_ids (l : list Admin.t) :
  Admin.id row = i → Admin.id <$> (replace <$> l) = Admin.id <$> l.
Proof.
  intros row_id. induction l as [|a l IH]; [done|]. cbn. rewrite IH. f_equal.
  subst replace. cbn. by destruct (decide _); [congruence|].
Qed.

Lemma replace_absent (l : list Admin.t) :
  (∀ x, x ∈ l → Admin.id x ≠ i) → replace <$> l = l.
Proof.
  induction l as [|a l IH]; intros Hl; [done|]. cbn. rewrite IH.
  - subst replace. cbn. destruct (decide _) as [E|]; [|done].
    destruct (Hl a); [left | done].
  - intros x Hx. apply Hl. by right.
Qed.

Lemma replace_other (l : list Admin.t) (x : Admin.t) :
  x ∈ l → Admin.id x ≠ i → x ∈ replace <$> l.
Proof.
  intros Hx Hne. apply list_elem_of_fmap. exists x. split; [|done].
  subst replace. cbn. by rewrite decide_False.
Qed.

(** Replacing the row of a unique id keeps a key [k] free of duplicates when
    the new row keeps the old key or takes one that no row had. *)
Lemma replace_keys {K} (k : Admin.t → K) (l : list Admin.t) (old : Admin.t) :
  NoDup (Admin.id <$> l) → NoDup (k <$> l) →
  old ∈ l → Admin.id old = i →
  (k row = k old ∨ ∀ x, x ∈ l → k x ≠ k row) →
  NoDup (k <$> (replace <$> l)).
Proof.
  induction l as [|a l IH]; intros Hids Hkeys Hold Hi Hrow;
    [by apply elem_of_nil in Hold|].
  rewrite fmap_cons in Hids. rewrite fmap_cons in Hkeys.
  apply NoDup_cons in Hids as [Hida Hids].
  apply NoDup_cons in Hkeys as [Hka Hkeys].
  assert (∀ x, x ∈ l → Admin.id x ≠ Admin.id a) as Hl.
  { intros x Hx E. apply Hida, list_elem_of_fmap. eauto. }
  rewrite !fmap_cons. apply NoDup_cons.
  destruct (decide (Admin.id a = i)) as [Ea|Ea].
  - assert (old = a) as ->.
    { apply elem_of_cons in Hold as [|Hold]; [done|].
      destruct (Hl old Hold). congruence. }
    rewrite replace_absent by (intros x Hx; rewrite <- Ea; by apply Hl).
    subst replace. cbn. rewrite decide_True by done. split; [|done].
    intros (x & E & Hx)%list_elem_of_fmap.
    destruct Hrow as [Hrow|Hrow].
    + apply Hka, list_elem_of_fmap. exists x. split; [congruence|done].
    + apply (Hrow x); [by right | done].
  - assert (old ∈ l) as Hold'.
    { apply elem_of_cons in Hold as [->|]; [by destruct Ea | done]. }
    split.
    + subst replace. cbn. rewrite decide_False by done.
      intros (y & E & (x & -> & Hx)%list_elem_of_fmap)%list_elem_of_fmap.
      cbn in E. destruct (decide (Admin.id x = i)).
      * destruct Hrow as [Hrow|Hrow].
        -- apply Hka, list_elem_of_fmap. exists old.
           split; [congruence|done].
        -- apply (Hrow a); [left | done].
      * apply Hka, list_elem_of_fmap. eauto.
    + apply IH; try done.
      destruct Hrow as [Hrow|Hrow]; [by left|].
      right. intros x Hx. apply Hrow. by right.
Qed.

(** The new row is the one found under its id afterwards. *)
Lemma replace_head (l : list Admin.t) (old : Admin.t) :
  old ∈ l → Admin.id old = i →
  (Admin.id row = i ∨ ∀ x, x ∈ l → Admin.id x ≠ Admin.id row) →
  head (filter (λ a, Admin.id a = Admin.id row) (replace <$> l)) = Some row.
Proof.
  induction l as [|a l IH]; intros Hold Hi Hrow;
    [by apply elem_of_nil in Hold|].
  rewrite fmap_cons. subst replace. cbn beta.
  destruct (decide (Admin.id a = i)) as [Ea|Ea].
  - by rewrite filter_cons_True.
  - rewrite filter_cons_False.
    + apply IH; [|done|].
      * apply elem_of_cons in Hold as [->|]; [by destruct Ea | done].
      * destruct Hrow as [Hrow|Hrow]; [by left|].
        right. intros x Hx. apply Hrow. by right.
    + destruct Hrow as [Hrow|Hrow]; [congruence|].
      apply Hrow. left.
Qed.

End Replace.

Lemma prisma_update_keeps_unique_keys i data now st :
  unique_keys st → unique_keys (prisma_admin.update i data now st).2.
Proof.
  intros [Hids Hemails].
  destruct (prisma_admin.update i data now st) as [r st'] eqn:E.
  apply prisma_update_inv in E
    as [(_ & -> & _) | [(old & _ & _ & -> & _)
                       | (old & Hold & _ & -> & Hid & Hemail)]];
    try done.
  apply head_filter_Some in Hold as [Hi Hold].
  split; cbn.
  - by apply replace_keys with (old := old).
  - by apply replace_keys with (old := old).
Qed.

Lemma update_store_inv userId data now st :
  (AdminService.update userId data now st).2 = st
  ∨ AdminService.update userId data now st
    = prisma_admin.update userId data now st.
Proof.
  rewrite update_unfold. destruct (head _); [|by left].
  destruct (AdminService.email_changes _ _); [|by right].
  destruct (head _); [by left | by right].
Qed.

(** X5. [update] of an id that no admin has is refused with the 404 "User
    with ID ... not found", before anything is looked up by email or
    written. *)
Theorem update_unknown_id_not_found userId data now st :
  (∀ a, a ∈ admins st → Admin.id a ≠ userId) →
  AdminService.update userId data now st =
    (Throw (HttpException 404 ("User with ID " +:+ userId +:+ " not found")),
     st).
Proof.
  intros Hno. rewrite update_unfold.
  assert (head (filter (λ a, Admin.id a = userId) (admins st)) = None) as ->
    by (apply head_filter_None; done).
  done.
Qed.

Lemma update_unknown_id_not_found_witness :
  AdminService.update "zz"
    (AdminUpdateInput.mk None (Some "Nobody") None None None) 200 Sample.store
  = (Throw (HttpException 404 "User with ID zz not found"), Sample.store).
Proof.
  apply (update_unknown_id_not_found "zz"
           (AdminUpdateInput.mk None (Some "Nobody") None None None) 200
           Sample.store).
  intros a Ha. cbn in Ha.
  repeat (apply elem_of_cons in Ha as [->|Ha]); try discriminate.
  by apply elem_of_nil in Ha.
Defined.

Lemma update_email_in_use_conflict_witness :
  AdminService.update "a1"
    (AdminUpdateInput.make (Some "chosen-by-client") (Some "Bob@Example.com")
       None None None None None None) 200
    (set_admins
       (λ l, (l ++ [Admin.mk "a4" "Bob@Example.com" "Bobby"
                      "$2b$10$bobby-secret" 1 0 104 104])%list) Sample.store)
  = (Throw (HttpException 409
              "Email Bob@Example.com is already in use by another user"),
     set_admins
       (λ l, (l ++ [Admin.mk "a4" "Bob@Example.com" "Bobby"
                      "$2b$10$bobby-secret" 1 0 104 104])%list) Sample.store).
Proof.
  apply (update_email_in_use_conflict "a1"
           (AdminUpdateInput.make (Some "chosen-by-client")
              (Some "Bob@Example.com") None None None None None None)
           200 _ Sample.alice "Bob@Example.com"
           (Admin.mk "a4" "Bob@Example.com" "Bobby" "$2b$10$bobby-secret"
              1 0 104 104)).
  - reflexivity.
  - reflexivity.
  - discriminate.
  - reflexivity.
  - reflexivity.
  - vm_compute. discriminate.
  - cbn. do 4 right. left.
  - reflexivity.
Defined.

(** X7. When [update] succeeds the row is written from [data] as given: a
    supplied password is stored as it came, without hashing; every column
    present in [data] takes its value, the id and the timestamps included,
    and every column absent keeps its own, except that [updatedAt] becomes
    the current time.  No row is added or removed, rows with another id are
    untouched, and [findById] of the row's id then returns it. *)
Theorem update_writes_data_as_given userId data now st a st' :
  AdminService.update userId data now st = (Ok a, st') →
  ∃ old,
    old ∈ admins st ∧ Admin.id old = userId
    ∧ Admin.id a = default userId (AdminUpdateInput.id data)
    ∧ Admin.password a
      = default (Admin.password old) (AdminUpdateInput.password data)
    ∧ Admin.email a = default (Admin.email old) (AdminUpdateInput.email data)
    ∧ Admin.name a = default (Admin.name old) (AdminUpdateInput.name data)
    ∧ Admin.status a
      = default (Admin.status old) (AdminUpdateInput.status data)
    ∧ Admin.isSystem a
      = default (Admin.isSystem old) (AdminUpdateInput.isSystem data)
    ∧ Admin.createdAt a
      = default (Admin.createdAt old) (AdminUpdateInput.createdAt data)
    ∧ Admin.updatedAt a = default now (AdminUpdateInput.updatedAt data)
    ∧ length (admins st') = length (admins st)
    ∧ (∀ x, x ∈ admins st → Admin.id x ≠ userId → x ∈ admins st')
    ∧ AdminService.findById (Admin.id a) st' = (Ok a, st').
Proof.
  intros E.
  assert (prisma_admin.update userId data now st = (Ok a, st')) as Hp.
  { rewrite update_unfold in E. destruct (head _); [|done].
    destruct (AdminService.email_changes _ _); [|done].
    destruct (head _); done. }
  clear E. rename Hp into E.
  apply prisma_update_inv in E
    as [(? & _) | [(old & _ & ? & _)
                  | (old & Hold & [= ->] & -> & Hid & _)]];
    try done.
  exists old. assert (Hold' := Hold).
  apply head_filter_Some in Hold' as [Hi Hin].
  split; [done|]. split; [done|]. split.
  { unfold prisma_admin.apply_update. cbn. by rewrite Hi. }
  do 7 (split; [done|]). split; [|split].
  - cbn. by rewrite length_fmap.
  - intros x Hx Hne. cbn. by apply replace_other.
  - rewrite findById_unfold. unfold set_admins. cbn [admins].
    rewrite (replace_head userId _ (admins st) old); try done.
    destruct Hid as [Hid|Hid]; [left; congruence | by right].
Qed.

Lemma update_writes_data_as_given_witness :
  ∃ a st',
    AdminService.update "a2"
      (AdminUpdateInput.make (Some "b2") None None (Some "new-plain-text")
         None None None None) 200
      Sample.store = (Ok a, st')
    ∧ Admin.id a = "b2"
    ∧ Admin.password a = "new-plain-text"
    ∧ AdminService.findById "b2" st' = (Ok a, st').
Proof.
  eexists _, _.
  assert (AdminService.update "a2"
            (AdminUpdateInput.make (Some "b2") None None
               (Some "new-plain-text") None None None None)
            200 Sample.store = (Ok _, _)) as E by (vm_compute; reflexivity).
  destruct (update_writes_data_as_given _ _ _ _ _ _ E)
    as (old & _ & _ & _ & _ & _ & _ & _ & _ & _ & _ & _ & _ & Hfind).
  split; [exact E|]. split; [reflexivity|]. split; [reflexivity|].
  exact Hfind.
Defined.



Section KeepKeys.
Variable bcryptjs_1 : Bcrypt.

Lemma updatePasswordWithoutCurrent_unfold adminId newPassword salt now st :
  AdminService.updatePasswordWithoutCurrent bcryptjs_1 adminId newPassword
    salt now st =
  match head (filter (λ a, Admin.id a = adminId) (admins st)) with
  | None => (Throw (Error "Admin not found"), st)
  | Some admin =>
      if compare bcryptjs_1 newPassword (Admin.password admin)
      then (Throw (Error "New password is already used in the past"), st)
      else
        let row :=
          prisma_admin.apply_update
            (AdminUpdateInput.mk None None
               (Some (hash bcryptjs_1 newPassword 10 salt)) None None)
            now admin in
        (Ok (),
         set_admins
           (fmap (λ a, if decide (Admin.id a = adminId) then row else a)) st)
  end.
Proof.
  unfold AdminService.updatePasswordWithoutCurrent,
    prisma_admin.findUnique_id. run_async.
  destruct (head _) as [admin|] eqn:Hhead; [|done].
  destruct (compare bcryptjs_1 newPassword _); [done|].
  unfold prisma_admin.update. rewrite Hhead. cbn zeta.
  destruct (decide _) as [[[Hne _]|[Hne _]]|_]; [by destruct Hne..|done].
Qed.

(** X9. Every update path keeps ids and emails unique.  Whatever their
    outcome, [update], [updateProfile], [updatePassword] and
    [updatePasswordWithoutCurrent] turn a store whose admin ids and emails
    are pairwise distinct into one that still has them so. *)
Theorem updates_keep_unique_keys (st : Store) :
  unique_keys st →
  (∀ userId data now,
     unique_keys (AdminService.update userId data now st).2)
  ∧ (∀ adminId name email now,
       unique_keys (AdminService.updateProfile adminId name email now st).2)
  ∧ (∀ adminId currentPassword newPassword salt now,
       unique_keys
         (AdminService.updatePassword bcryptjs_1 adminId currentPassword
            newPassword salt now st).2)
  ∧ (∀ adminId newPassword salt now,
       unique_keys
         (AdminService.updatePasswordWithoutCurrent bcryptjs_1 adminId
            newPassword salt now st).2).
Proof.
  intros Hst. split; [|split; [|split]].
  - intros userId data now.
    destruct (update_store_inv userId data now st) as [-> | ->]; [done|].
    by apply prisma_update_keeps_unique_keys.
  - intros adminId name email now.
    by apply prisma_update_keeps_unique_keys.
  - intros adminId currentPassword newPassword salt now.
    rewrite updatePassword_unfold.
    destruct (head _) as [admin|] eqn:Hhead; [|done].
    destruct (negb _); [done|]. destruct (compare _ _ _); [done|].
    pose proof (prisma_update_keeps_unique_keys adminId
                  (AdminUpdateInput.mk None None
                     (Some (hash bcryptjs_1 newPassword 10 salt)) None None)
                  now st Hst) as Hk.
    unfold prisma_admin.update in Hk. rewrite Hhead in Hk. cbn zeta in Hk.
    destruct (decide _) as [[[Hne _]|[Hne _]]|_];
      [by destruct Hne.. | exact Hk].
  - intros adminId newPassword salt now.
    rewrite updatePasswordWithoutCurrent_unfold.
    destruct (head _) as [admin|] eqn:Hhead; [|done].
    destruct (compare _ _ _); [done|].
    pose proof (prisma_update_keeps_unique_keys adminId
                  (AdminUpdateInput.mk None None
                     (Some (hash bcryptjs_1 newPassword 10 salt)) None None)
                  now st Hst) as Hk.
    unfold prisma_admin.update in Hk. rewrite Hhead in Hk. cbn zeta in Hk.
    destruct (decide _) as [[[Hne _]|[Hne _]]|_];
      [by destruct Hne.. | exact Hk].
Qed.

End KeepKeys.

Lemma updates_keep_unique_keys_witness :
  unique_keys
    (AdminService.update "a1"
       (AdminUpdateInput.mk (Some "alice@example.org") None None None None)
       200 Sample.store).2.
Proof.
  destruct (updates_keep_unique_keys Sample.bcrypt Sample.store
              Sample_store_unique_keys) as [Hupdate _].
  apply Hupdate.
Defined.

(** ** Bulk delete, repeated *)

Lemma delete_unfold (userIds : list string) (st : Store) :
  AdminService.delete userIds st =
    (if decide (Exists (AdminService.delete_where userIds) (admins st))
     then Ok true
     else Throw (HttpException 409 "User doesn't exist"),
     set_admins (filter (λ a, ¬ AdminService.delete_where userIds a)) st).
Proof.
  unfold AdminService.delete, prisma_admin.deleteMany. run_async.
  pose proof (length_filter_zero (AdminService.delete_where userIds)
                (admins st)) as Hz.
  destruct (decide (Exists _ _)) as [Hex|Hex].
  - destruct (Z.eqb_spec
                (Z.of_nat (length (filter (AdminService.delete_where userIds)
                                          (admins st)))) 0) as [E|_]; [|done].
    destruct Hz as [Hz _]. destruct Hz; [lia | done].
  - destruct Hz as [_ Hz]. by rewrite (Hz Hex).
Qed.

(** X10. A bulk delete leaves nothing for a second one: after [delete] of a
    list of ids, whether it succeeded or not, a [delete] of any of those ids
    again is refused with the 409 and changes nothing. *)
Theorem delete_again_conflict (userIds userIds' : list string) (st : Store) :
  userIds' ⊆ userIds →
  let st' := (AdminService.delete userIds st).2 in
  AdminService.delete userIds' st'
  = (Throw (HttpException 409 "User doesn't exist"), st').
Proof.
  intros Hsub st'. subst st'. rewrite (delete_unfold userIds st). cbn [snd].
  rewrite delete_unfold.
  assert (∀ x, x ∈ admins (set_admins
                 (filter (λ a, ¬ AdminService.delete_where userIds a)) st) →
               ¬ AdminService.delete_where userIds' x) as Hnone.
  { intros x [Hx _]%list_elem_of_filter [Hin Hz]. apply Hx.
    split; [by apply Hsub | done]. }
  rewrite decide_False.
  - f_equal. destruct st as [ad ro pe mh rh]. unfold set_admins. cbn in *.
    f_equal. apply filter_all. intros x Hx. by apply Hnone.
  - intros (x & Hx & Hd)%Exists_exists. by apply (Hnone x).
Qed.

Lemma delete_again_conflict_witness :
  let st' := (AdminService.delete ["a1"; "a2"] Sample.store).2 in
  AdminService.delete ["a2"] st'
  = (Throw (HttpException 409 "User doesn't exist"), st').
Proof.
  apply (delete_again_conflict ["a1"; "a2"] ["a2"] Sample.store).
  intros x Hx. apply list_elem_of_singleton in Hx as ->. right. left.
Defined.

(** X11. [delete] keeps ids and emails unique, whatever its outcome, and
    the rows it leaves are rows that were there, in their order. *)
Theorem delete_keeps_unique_keys (userIds : list string) (st : Store) :
  unique_keys st →
  unique_keys (AdminService.delete userIds st).2
  ∧ admins (AdminService.delete userIds st).2 `sublist_of` admins st.
Proof.
  intros [Hids Hemails]. rewrite delete_unfold. cbn.
  pose proof (sublist_filter
                (λ a, ¬ AdminService.delete_where userIds a) (admins st))
    as Hsub.
  split; [split|done].
  - eapply sublist_NoDup; [exact Hids|]. by apply fmap_sublist.
  - eapply sublist_NoDup; [exact Hemails|]. by apply fmap_sublist.
Qed.

Lemma delete_keeps_unique_keys_witness :
  unique_keys (AdminService.delete ["a1"; "a0"] Sample.store).2.
Proof.
  apply (delete_keeps_unique_keys ["a1"; "a0"] Sample.store
           Sample_store_unique_keys).
Defined.

(** ** Password changes *)

Section Passwords.
Variable bcryptjs_1 : Bcrypt.

(** X12. Without a valid current password nothing is changed: for an id no
    admin has, [updatePassword] throws "Admin not found"; for a current
    password that does not verify against the stored hash it throws
    "Current password is incorrect", whatever the new password is.  Both
    are plain errors, and the store is as before. *)
Theorem updatePassword_needs_valid_current
    adminId currentPassword newPassword salt now st :
  ((∀ a, a ∈ admins st → Admin.id a ≠ adminId) →
     AdminService.updatePassword bcryptjs_1 adminId currentPassword
       newPassword salt now st
     = (Throw (Error "Admin not found"), st))
  ∧ (∀ admin,
       head (filter (λ a, Admin.id a = adminId) (admins st)) = Some admin →
       compare bcryptjs_1 currentPassword (Admin.password admin) = false →
       AdminService.updatePassword bcryptjs_1 adminId currentPassword
         newPassword salt now st
       = (Throw (Error "Current password is incorrect"), st)).
Proof.
  rewrite updatePassword_unfold. split.
  - intros Hno.
    assert (head (filter (λ a, Admin.id a = adminId) (admins st)) = None)
      as -> by (apply head_filter_None; done).
    done.
  - intros admin -> ->. done.
Qed.

(** X13. A successful [updatePassword] changes the password hash and the
    update time of that admin and nothing else: email, name, status,
    [isSystem] and creation time are kept, no row is added or removed, and
    the rows of other admins are untouched. *)
Theorem updatePassword_changes_hash_only
    adminId currentPassword newPassword salt now st st' :
  AdminService.updatePassword bcryptjs_1 adminId currentPassword newPassword
    salt now st = (Ok (), st') →
  ∃ admin,
    admin ∈ admins st ∧ Admin.id admin = adminId
    ∧ head (filter (λ a, Admin.id a = adminId) (admins st'))
      = Some (Admin.mk (Admin.id admin) (Admin.email admin) (Admin.name admin)
                (hash bcryptjs_1 newPassword 10 salt) (Admin.status admin)
                (Admin.isSystem admin) (Admin.createdAt admin) now)
    ∧ Admin.id <$> admins st' = Admin.id <$> admins st
    ∧ (∀ x, x ∈ admins st → Admin.id x ≠ adminId → x ∈ admins st')
    ∧ roles st' = roles st ∧ permissions st' = permissions st
    ∧ modelHasRoles st' = modelHasRoles st
    ∧ roleHasPermissions st' = roleHasPermissions st.
Proof.
  rewrite updatePassword_unfold.
  destruct (head _) as [admin|] eqn:Hhead; [|done].
  destruct (negb _); [done|]. destruct (compare _ _ _); [done|].
  cbn zeta. intros [= <-]. exists admin. assert (Hhead' := Hhead).
  apply head_filter_Some in Hhead' as [Hi Hin].
  repeat split; try done; cbn.
  - by rewrite (update_head_filter adminId _ (admins st) admin).
  - by apply replace_ids.
  - intros x Hx Hne. by apply replace_other.
Qed.

(** X14. After a successful change the new password is the current one: a
    further [updatePassword] that gives it as [currentPassword] gets past
    both the lookup and the current-password check, so it is refused only
    if its own new password verifies against the new hash. *)
Theorem updatePassword_new_becomes_current
    adminId currentPassword newPassword salt now st st'
    newerPassword salt2 now2 :
  Bcrypt_sound bcryptjs_1 →
  AdminService.updatePassword bcryptjs_1 adminId currentPassword newPassword
    salt now st = (Ok (), st') →
  ∃ r st'',
    AdminService.updatePassword bcryptjs_1 adminId newPassword newerPassword
      salt2 now2 st' = (r, st'')
    ∧ r = (if compare bcryptjs_1 newerPassword
                (hash bcryptjs_1 newPassword 10 salt)
           then Throw (Error "New password is already used in the past")
           else Ok ()).
Proof.
  intros Hsound E.
  rewrite updatePassword_unfold in E.
  destruct (head _) as [admin|] eqn:Hhead; [|done].
  destruct (negb _); [done|]. destruct (compare _ _ _); [done|].
  cbn zeta in E. injection E as <-.
  assert (Admin.id admin = adminId) as Hi
    by (by apply head_filter_Some in Hhead as [? _]).
  rewrite updatePassword_unfold. cbn [admins set_admins].
  rewrite (update_head_filter adminId _ (admins st) admin) by done.
  cbn. rewrite Hsound. cbn.
  destruct (compare _ _ _); eexists _, _; done.
Qed.

(** X15. [updatePasswordWithoutCurrent] is [updatePassword] with the check
    of the current password left out: whenever the current password
    supplied verifies against the stored hash, the two do the same. *)
Theorem updatePasswordWithoutCurrent_agrees
    adminId currentPassword newPassword salt now st :
  (∀ admin,
     head (filter (λ a, Admin.id a = adminId) (admins st)) = Some admin →
     compare bcryptjs_1 currentPassword (Admin.password admin) = true) →
  AdminService.updatePassword bcryptjs_1 adminId currentPassword newPassword
    salt now st
  = AdminService.updatePasswordWithoutCurrent bcryptjs_1 adminId newPassword
      salt now st.
Proof.
  intros Hcur.
  rewrite updatePassword_unfold, updatePasswordWithoutCurrent_unfold.
  destruct (head _) as [admin|] eqn:Hhead; [|done].
  by rewrite (Hcur admin eq_refl).
Qed.

End Passwords.

Lemma updatePassword_needs_valid_current_witness :
  AdminService.updatePassword Sample.bcrypt "a1" "not-my-pass" "second-pass"
    "salt" 200 Sample.store
  = (Throw (Error "Current password is incorrect"), Sample.store).
Proof.
  destruct (updatePassword_needs_valid_current Sample.bcrypt "a1"
              "not-my-pass" "second-pass" "salt" 200 Sample.store)
    as [_ Hwrong].
  apply (Hwrong Sample.alice); reflexivity.
Defined.

Lemma Sample_alice_changes_password :
  AdminService.updatePassword Sample.bcrypt "a1" "first-pass" "second-pass"
    "salt" 200 Sample.store
  = (Ok (),
     set_admins
       (λ _, [Sample.root;
              Admin.mk "a1" "alice@example.com" "Alice"
                "$2b$10$second-pass" 1 0 101 200;
              Sample.bob; Sample.carol]) Sample.store).
Proof. vm_compute. reflexivity. Defined.

Lemma updatePassword_changes_hash_only_witness :
  ∃ admin,
    admin ∈ admins Sample.store ∧ Admin.id admin = "a1"
    ∧ Admin.id <$> admins (AdminService.updatePassword Sample.bcrypt "a1"
                             "first-pass" "second-pass" "salt" 200
                             Sample.store).2
      = Admin.id <$> admins Sample.store.
Proof.
  destruct (updatePassword_changes_hash_only Sample.bcrypt "a1" "first-pass"
              "second-pass" "salt" 200 Sample.store _
              Sample_alice_changes_password)
    as (admin & Hin & Hid & _ & Hids & _).
  exists admin. split; [exact Hin|]. split; [exact Hid|].
  rewrite Sample_alice_changes_password. exact Hids.
Defined.

Lemma updatePassword_new_becomes_current_witness :
  ∃ r st'',
    AdminService.updatePassword Sample.bcrypt "a1" "second-pass" "third-pass"
      "salt" 201
      (set_admins
         (λ _, [Sample.root;
                Admin.mk "a1" "alice@example.com" "Alice"
                  "$2b$10$second-pass" 1 0 101 200;
                Sample.bob; Sample.carol]) Sample.store) = (r, st'')
    ∧ r = Ok ().
Proof.
  destruct (updatePassword_new_becomes_current Sample.bcrypt "a1"
              "first-pass" "second-pass" "salt" 200 Sample.store _
              "third-pass" "salt" 201 Sample_bcrypt_sound
              Sample_alice_changes_password) as (r & st'' & E & Hr).
  exists r, st''. split; [exact E | exact Hr].
Defined.

Lemma updatePasswordWithoutCurrent_agrees_witness :
  AdminService.updatePassword Sample.bcrypt "a1" "first-pass" "second-pass"
    "salt" 200 Sample.store
  = AdminService.updatePasswordWithoutCurrent Sample.bcrypt "a1"
      "second-pass" "salt" 200 Sample.store.
Proof.
  apply (updatePasswordWithoutCurrent_agrees Sample.bcrypt "a1" "first-pass"
           "second-pass" "salt" 200 Sample.store).
  intros admin [= <-]. reflexivity.
Defined.

(** ** Profile updates *)

Lemma updateProfile_throws_storage_errors_witness :
  AdminService.updateProfile "zz" "Nobody" "nobody@example.com" 200
    Sample.store = (Throw P2025, Sample.store)
  ∧ is_domain_error P2025 = false.
Proof.
  assert (AdminService.updateProfile "zz" "Nobody" "nobody@example.com" 200
            Sample.store = (Throw P2025, Sample.store)) as E by reflexivity.
  split; [exact E|].
  apply (updateProfile_throws_storage_errors "zz" "Nobody"
           "nobody@example.com" 200 Sample.store P2025 Sample.store E).
Defined.

(** X17. A successful [updateProfile] sets the name and the email (and the
    update time) of that admin and leaves the password hash, the status and
    the [isSystem] flag as they were; the new email is the admin's own or
    one that no admin had. *)
Theorem updateProfile_keeps_credentials adminId name email now st a st' :
  AdminService.updateProfile adminId name email now st = (Ok a, st') →
  ∃ old,
    old ∈ admins st ∧ Admin.id old = adminId
    ∧ a = Admin.mk adminId email name (Admin.password old) (Admin.status old)
            (Admin.isSystem old) (Admin.createdAt old) now
    ∧ (email = Admin.email old ∨ ∀ x, x ∈ admins st → Admin.email x ≠ email)
    ∧ AdminService.findById adminId st' = (Ok a, st').
Proof.
  unfold AdminService.updateProfile. intros E.
  apply prisma_update_inv in E
    as [(? & _) | [(old & _ & ? & _)
                  | (old & Hold & [= ->] & -> & _ & Hrow)]];
    try done.
  exists old. assert (Hold' := Hold).
  apply head_filter_Some in Hold' as [Hi Hin].
  split; [done|]. split; [done|]. split; [|split].
  - unfold prisma_admin.apply_update. cbn. by rewrite Hi.
  - unfold prisma_admin.apply_update in Hrow. cbn in Hrow.
    destruct Hrow as [->|Hrow]; [by left | by right].
  - rewrite findById_unfold. cbn.
    by rewrite (update_head_filter adminId _ (admins st) old).
Qed.

Lemma updateProfile_keeps_credentials_witness :
  ∃ old,
    old ∈ admins Sample.store ∧ Admin.id old = "a1"
    ∧ Admin.mk "a1" "alice@example.org" "Alice L." "$2b$10$first-pass" 1 0
        101 200
      = Admin.mk "a1" "alice@example.org" "Alice L." (Admin.password old)
          (Admin.status old) (Admin.isSystem old) (Admin.createdAt old) 200.
Proof.
  destruct (updateProfile_keeps_credentials "a1" "Alice L."
              "alice@example.org" 200 Sample.store
              (Admin.mk "a1" "alice@example.org" "Alice L."
                 "$2b$10$first-pass" 1 0 101 200)
              (set_admins
                 (λ _, [Sample.root;
                        Admin.mk "a1" "alice@example.org" "Alice L."
                          "$2b$10$first-pass" 1 0 101 200;
                        Sample.bob; Sample.carol]) Sample.store))
    as (old & Hin & Hid & Ha & _).
  - vm_compute. reflexivity.
  - exists old. split; [exact Hin|]. split; [exact Hid | exact Ha].
Defined.

(** * The admin endpoints, from request to response *)

Lemma prisma_update_result i data now st :
  (∃ a st', prisma_admin.update i data now st = (Ok a, st'))
  ∨ prisma_admin.update i data now st = (Throw P2025, st)
  ∨ prisma_admin.update i data now st = (Throw P2002, st).
Proof.
  unfold prisma_admin.update. destruct (head _); [|by right; left].
  cbn zeta. destruct (decide _); [by right; right | left; by eexists _, _].
Qed.

Section Endpoints.
Variables bcrypt_1 bcryptjs_1 : Bcrypt.


(** X19. The status codes of the user endpoints.  [getUserById] answers 200
    or 409 and [deleteUser] 200 or 409; [createUser] answers 201, 409 or
    500; [updateUser] answers 200, 404, 409 or 500.  In particular a lookup
    of an unknown id is a 409 on [getUserById] and a 404 on [updateUser]. *)
Theorem user_endpoints_status_codes (st : Store) :
  (∀ userId,
     let code :=
       statusCode (respond (AdminController.getUserById userId st).1) in
     code = 200 ∨ code = 409)
  ∧ (∀ userIds,
       let code :=
         statusCode (respond (AdminController.deleteUser userIds st).1) in
       code = 200 ∨ code = 409)
  ∧ (∀ userData salt cuid now,
       let code :=
         statusCode
           (respond
              (AdminController.createUser bcrypt_1 userData salt cuid now
                 st).1) in
       code = 201 ∨ code = 409 ∨ code = 500)
  ∧ (∀ userId userData now,
       let code :=
         statusCode
           (respond (AdminController.updateUser userId userData now st).1) in
       code = 200 ∨ code = 404 ∨ code = 409 ∨ code = 500)
  ∧ (∀ userId userData now,
       (∀ a, a ∈ admins st → Admin.id a ≠ userId) →
       statusCode (respond (AdminController.getUserById userId st).1) = 409
       ∧ statusCode
           (respond (AdminController.updateUser userId userData now st).1)
         = 404).
Proof.
  split; [|split; [|split; [|split]]].
  - intros userId. unfold AdminController.getUserById, try_catch. run_async.
    rewrite findById_unfold. destruct (head _); cbn; auto.
  - intros userIds. unfold AdminController.deleteUser, try_catch. run_async.
    rewrite delete_unfold. destruct (decide _); cbn; auto.
  - intros userData salt cuid now.
    unfold AdminController.createUser, try_catch. run_async.
    rewrite create_unfold. destruct (head _); [cbn; auto|].
    unfold prisma_admin.create. cbn zeta. destruct (decide _); cbn; auto.
  - intros userId userData now.
    unfold AdminController.updateUser, try_catch. run_async.
    rewrite update_unfold. destruct (head _); [|cbn; auto].
    destruct (prisma_update_result userId userData now st)
      as [(a & st' & E) | [E | E]];
      destruct (AdminService.email_changes _ _);
      try destruct (head _); rewrite ?E; cbn; auto.
  - intros userId userData now Hno.
    assert (head (filter (λ a, Admin.id a = userId) (admins st)) = None) as Hh
      by (apply head_filter_None; done).
    unfold AdminController.getUserById, AdminController.updateUser, try_catch.
    run_async. rewrite findById_unfold, update_unfold, Hh. done.
Qed.

(** X20. What [deleteUser] sends back: 200 with the message "deleted" when
    some admin had one of the ids and an [isSystem] flag of 0, and otherwise
    the 409 envelope with "User doesn't exist", for an empty id list in
    particular. *)
Theorem deleteUser_response (userIds : list string) (st : Store) :
  respond (AdminController.deleteUser userIds st).1
  = (if decide (Exists (AdminService.delete_where userIds) (admins st))
     then mkResponse 200 (DataMessage None "deleted")
     else mkResponse 409 (MessageStatus "User doesn't exist" 409))
  ∧ respond (AdminController.deleteUser [] st).1
    = mkResponse 409 (MessageStatus "User doesn't exist" 409).
Proof.
  unfold AdminController.deleteUser, try_catch. run_async.
  rewrite !delete_unfold. split.
  - by destruct (decide _).
  - rewrite decide_False; [done|].
    intros (x & _ & Hin & _)%Exists_exists. by apply elem_of_nil in Hin.
Qed.

(** X21. What [createUser] sends back on success: 201 with the stored row
    as [data], and that row carries the password hash, not the password
    that was sent. *)
Theorem createUser_returns_stored_row userData salt cuid now st r st' :
  AdminController.createUser bcrypt_1 userData salt cuid now st
  = (Responded r, st') →
  ∃ a,
    r = mkResponse 201 (DataMessage (Some a) "created")
    ∧ AdminService.create bcrypt_1 userData salt cuid now st = (Ok a, st')
    ∧ a ∈ admins st'
    ∧ Admin.password a
      = hash bcrypt_1 (AdminCreateInput.password userData) 10 salt.
Proof.
  unfold AdminController.createUser, try_catch. run_async.
  destruct (AdminService.create _ _ _ _ _ _) as [[a|e] st''] eqn:E; [|done].
  intros [= <- <-]. exists a. split; [done|]. split; [done|].
  assert (E' := E). apply create_Ok_inv in E' as (-> & _).
  split.
  - cbn. apply elem_of_app. right. left.
  - rewrite create_unfold in E. destruct (head _); [done|].
    unfold prisma_admin.create in E. cbn zeta in E.
    destruct (decide _); [done|]. by injection E as <-.
Qed.

End Endpoints.

Lemma user_endpoints_status_codes_witness :
  statusCode (respond (AdminController.getUserById "zz" Sample.store).1) = 409
  ∧ statusCode
      (respond
         (AdminController.updateUser "zz"
            (AdminUpdateInput.mk None (Some "Nobody") None None None) 200
            Sample.store).1) = 404.
Proof.
  destruct (user_endpoints_status_codes Sample.bcrypt Sample.store)
    as (_ & _ & _ & _ & Hunknown).
  apply Hunknown. intros a Ha. cbn in Ha.
  repeat (apply elem_of_cons in Ha as [->|Ha]); try discriminate.
  by apply elem_of_nil in Ha.
Defined.

Lemma createUser_returns_stored_row_witness :
  ∃ a,
    AdminService.create Sample.bcrypt Sample.newcomer "salt" "ck01" 200
      Sample.store
    = (Ok a, set_admins (λ l, (l ++ [a])%list) Sample.store)
    ∧ Admin.password a = "$2b$10$plain-text".
Proof.
  destruct (createUser_returns_stored_row Sample.bcrypt Sample.newcomer
              "salt" "ck01" 200 Sample.store
              (mkResponse 201
                 (DataMessage
                    (Some (Admin.mk "ck01" "dave@example.com" "Dave"
                             "$2b$10$plain-text" 1 0 200 200)) "created"))
              (set_admins
                 (λ l, (l ++ [Admin.mk "ck01" "dave@example.com" "Dave"
                                "$2b$10$plain-text" 1 0 200 200])%list)
                 Sample.store))
    as (a & Hr & E & _ & Hpw).
  - vm_compute. reflexivity.
  - exists a. injection Hr as <-. split; [exact E | exact Hpw].
Defined.

(** ** What [getUsers] passes on as filters and order *)

(** X22. The filters handed to [findAllPaginate] are the query parameters
    other than [pageNumber], [perPage], [sort] and [order], with their
    values; [q] and [ignoreGlobal], when supplied, are therefore among the
    filters as well as in their own fields. *)
Theorem getUsers_filters (J : JsNumber) (query : gmap string string) :
  let o := AdminController.options J query in
  (∀ k, AdminController.filters o !! k
        = if decide (k ∈ ["pageNumber"; "perPage"; "sort"; "order"])
          then None else query !! k)
  ∧ AdminController.filters o !! "q" = query !! "q"
  ∧ AdminController.q o = query !! "q"
  ∧ AdminController.filters o !! "ignoreGlobal" = query !! "ignoreGlobal"
  ∧ (query !! "ignoreGlobal" = None → AdminController.ignoreGlobal o = []).
Proof.
  cbn zeta. unfold AdminController.options. cbn.
  assert (∀ k, delete "order" (delete "sort" (delete "perPage"
                 (delete "pageNumber" query))) !! k
               = if decide (k ∈ ["pageNumber"; "perPage"; "sort"; "order"])
                 then None else query !! k) as Hk.
  { intros k. rewrite !lookup_delete.
    destruct (decide (k ∈ _)) as [Hin|Hout].
    - repeat case_decide; try done. subst.
      repeat (apply elem_of_cons in Hin as [->|Hin]); try done.
      by apply elem_of_nil in Hin.
    - repeat case_decide; try done; subst; destruct Hout;
        repeat first [by left | right]. }
  split; [exact Hk|]. split; [by rewrite Hk|]. split; [done|].
  split; [by rewrite Hk|]. by intros ->.
Qed.

Lemma getUsers_filters_witness :
  AdminController.ignoreGlobal
    (AdminController.options Sample.numbers Sample.query) = [].
Proof.
  destruct (getUsers_filters Sample.numbers Sample.query)
    as (_ & _ & _ & _ & Hig).
  apply Hig. reflexivity.
Defined.

Lemma upper_lower_ascii (c : ascii) :
  Js.upper_ascii (Js.lower_ascii c) = Js.upper_ascii c.
Proof. by destruct c as [[] [] [] [] [] [] [] []]. Qed.

Lemma upper_upper_ascii (c : ascii) :
  Js.upper_ascii (Js.upper_ascii c) = Js.upper_ascii c.
Proof. by destruct c as [[] [] [] [] [] [] [] []]. Qed.

Lemma toUpperCase_toLowerCase (s : string) :
  Js.toUpperCase (Js.toLowerCase s) = Js.toUpperCase s.
Proof.
  induction s as [|c s IH]; [done|]. cbn.
  by rewrite upper_lower_ascii; f_equal.
Qed.

Lemma toUpperCase_idemp (s : string) :
  Js.toUpperCase (Js.toUpperCase s) = Js.toUpperCase s.
Proof.
  induction s as [|c s IH]; [done|]. cbn.
  by rewrite upper_upper_ascii; f_equal.
Qed.

(** X23. The order handed on does not depend on the letter case the caller
    used: two queries whose [order] parameters agree up to case give the
    same [order] option, and that option is already in upper case. *)
Theorem getUsers_order_ignores_case (J : JsNumber)
    (query1 query2 : gmap string string) (o1 o2 : string) :
  query1 !! "order" = Some o1 →
  query2 !! "order" = Some o2 →
  Js.toLowerCase o1 = Js.toLowerCase o2 →
  AdminController.order (AdminController.options J query1)
  = AdminController.order (AdminController.options J query2)
  ∧ Js.toUpperCase (AdminController.order (AdminController.options J query1))
    = AdminController.order (AdminController.options J query1).
Proof.
  intros H1 H2 Hcase. unfold AdminController.options. cbn.
  rewrite H1, H2. cbn. split; [|apply toUpperCase_idemp].
  by rewrite <- (toUpperCase_toLowerCase o1), Hcase, toUpperCase_toLowerCase.
Qed.

Lemma getUsers_order_ignores_case_witness :
  AdminController.order (AdminController.options Sample.numbers Sample.query)
  = AdminController.order
      (AdminController.options Sample.numbers {[ "order" := "Desc" ]}).
Proof.
  apply (getUsers_order_ignores_case Sample.numbers Sample.query
           {[ "order" := "Desc" ]} "desc" "Desc"); reflexivity.
Defined.

(** * Further properties of the schema's cascades *)

Lemma length_filter_complement {A} (P : A → Prop) `{∀ x, Decision (P x)}
    (l : list A) :
  (length (filter P l) + length (filter (λ x, ¬ P x) l))%nat = length l.
Proof.
  induction l as [|a l IH]; [done|].
  rewrite !filter_cons. destruct (decide (P a)) as [HP|HP].
  - rewrite decide_False by tauto. cbn. lia.
  - rewrite decide_True by done. cbn. lia.
Qed.

Section RoleDeleteFrame.
Context (P : Role.t → Prop) `{∀ r, Decision (P r)}.

(** X24. Deleting roles removes nothing it should not: admins and
    permissions are untouched, the count returned is the number of roles
    that went, and a join row whose role was not deleted is still there;
    no join row is added. *)
Theorem role_delete_spares_other_rows (st : Store) :
  ∃ n st',
    prisma_role.deleteMany schema P st = (Ok n, st')
    ∧ admins st' = admins st
    ∧ permissions st' = permissions st
    ∧ n = Z.of_nat (length (roles st)) - Z.of_nat (length (roles st'))
    ∧ (∀ x, x ∈ modelHasRoles st →
         (∀ r, r ∈ roles st → P r → Role.id r ≠ ModelHasRole.roleId x) →
         x ∈ modelHasRoles st')
    ∧ (∀ x, x ∈ roleHasPermissions st →
         (∀ r, r ∈ roles st → P r → Role.id r ≠ RoleHasPermission.roleId x) →
         x ∈ roleHasPermissions st')
    ∧ modelHasRoles st' `sublist_of` modelHasRoles st
    ∧ roleHasPermissions st' `sublist_of` roleHasPermissions st.
Proof.
  eexists _, _. split; [reflexivity|]. cbn.
  assert (∀ i, i ∈ Role.id <$> filter P (roles st) →
               ∃ r, r ∈ roles st ∧ P r ∧ Role.id r = i) as Hids.
  { intros i (r & -> & [HP Hr]%list_elem_of_filter)%list_elem_of_fmap.
    eauto. }
  repeat split; try done.
  - pose proof (length_filter_complement P (roles st)). lia.
  - intros x Hx Hkeep. apply list_elem_of_filter. split; [|done].
    intros (r & Hr & HP & E)%Hids. by apply (Hkeep r).
  - intros x Hx Hkeep. apply list_elem_of_filter. split; [|done].
    intros (r & Hr & HP & E)%Hids. by apply (Hkeep r).
  - apply sublist_filter.
  - apply sublist_filter.
Qed.

End RoleDeleteFrame.

Lemma role_delete_spares_other_rows_witness :
  ∃ st',
    prisma_role.deleteMany schema (λ r, Role.id r ∈ ["r1"]) Sample.store
    = (Ok 1, st')
    ∧ RoleHasPermission.mk "r2" "p2" ∈ roleHasPermissions st'.
Proof.
  destruct (role_delete_spares_other_rows (λ r, Role.id r ∈ ["r1"])
              Sample.store) as (n & st' & E & _ & _ & Hn & _ & Hkeep & _).
  exists st'. split.
  - rewrite E. f_equal. f_equal. rewrite Hn.
    vm_compute in E. by injection E as <- <-.
  - apply Hkeep; [right; left|].
    intros r Hr HP. apply list_elem_of_singleton in HP. rewrite HP. done.
Defined.

Section PermissionDelete.
Context (P : Permission.t → Prop) `{∀ p, Decision (P p)}.

(** X25. Deleting permissions cascades to the role-permission join table
    and to nothing else: the deletion always goes through, no
    [RoleHasPermission] row references a deleted permission afterwards, the
    rows of the permissions that stay are kept, and roles, role bindings
    and admins are untouched. *)
Theorem permission_delete_cascades (st : Store) :
  ∃ n st',
    prisma_permission.deleteMany schema P st = (Ok n, st')
    ∧ permissions st' = filter (λ p, ¬ P p) (permissions st)
    ∧ (∀ p, p ∈ permissions st → P p →
         ∀ x, x ∈ roleHasPermissions st' →
           RoleHasPermission.permissionId x ≠ Permission.id p)
    ∧ (∀ x, x ∈ roleHasPermissions st →
         (∀ p, p ∈ permissions st → P p →
            Permission.id p ≠ RoleHasPermission.permissionId x) →
         x ∈ roleHasPermissions st')
    ∧ roles st' = roles st
    ∧ modelHasRoles st' = modelHasRoles st
    ∧ admins st' = admins st.
Proof.
  eexists _, _. split; [reflexivity|]. cbn.
  repeat split; try done.
  - intros p Hp HP x [Hx _]%list_elem_of_filter E. apply Hx.
    rewrite E. apply list_elem_of_fmap. exists p. split; [done|].
    by apply list_elem_of_filter.
  - intros x Hx Hkeep. apply list_elem_of_filter. split; [|done].
    intros (p & E & [HP Hp]%list_elem_of_filter)%list_elem_of_fmap.
    by apply (Hkeep p).
Qed.

End PermissionDelete.

Lemma permission_delete_cascades_witness :
  ∃ st',
    prisma_permission.deleteMany schema (λ p, Permission.id p ∈ ["p1"])
      Sample.store = (Ok 1, st')
    ∧ roleHasPermissions st' = [RoleHasPermission.mk "r2" "p2"]
    ∧ roles st' = roles Sample.store.
Proof.
  destruct (permission_delete_cascades (λ p, Permission.id p ∈ ["p1"])
              Sample.store) as (n & st' & E & _ & _ & _ & Hroles & _).
  exists st'. split; [|split; [|exact Hroles]];
    vm_compute in E; by injection E as <- <-.
Defined.

(** * The authorization token of a request *)

Lemma starts_with_prefix (p s : string) :
  Js.starts_with p s = true → ∃ v, s = p +:+ v.
Proof.
  revert s. induction p as [|a p IH]; intros s; [by exists s|].
  destruct s as [|b s]; [done|]. cbn.
  intros [Hab Hp]%andb_true_iff. apply Ascii.eqb_eq in Hab as ->.
  destruct (IH s Hp) as [v ->]. by exists v.
Qed.

Lemma split_on_absent (sep cur t : string) :
  (∀ u v, t ≠ u +:+ sep +:+ v) →
  Js.split_on_go sep 0 cur t = [String.rev_app cur t].
Proof.
  revert cur. induction t as [|c t IH]; intros cur Hno; [done|].
  cbn. destruct (Js.starts_with sep (String c t)) eqn:Hpre.
  - apply starts_with_prefix in Hpre as [v Hv]. by destruct (Hno "" v).
  - rewrite IH; [done|]. intros u v ->. by apply (Hno (String c u) v).
Qed.

(** X26. What [getAuthorization] extracts.  A non-empty cookie is returned
    as it is, whatever the header.  Without one, the header "Bearer t"
    yields [t] (for a [t] that does not itself contain "Bearer "); a header
    that is present but holds no "Bearer " yields [undefined], not [null];
    only when cookie and header are both missing or empty is the result
    [null]. *)
Theorem getAuthorization_cases :
  (∀ c header, c ≠ "" →
     auth_middleware.getAuthorization (Some c) header
     = auth_middleware.token c)
  ∧ (∀ cookie t,
       cookie = None ∨ cookie = Some "" →
       (∀ u v, t ≠ u +:+ "Bearer " +:+ v) →
       auth_middleware.getAuthorization cookie (Some ("Bearer " +:+ t))
       = auth_middleware.token t)
  ∧ (∀ cookie h,
       cookie = None ∨ cookie = Some "" →
       h ≠ "" → (∀ u v, h ≠ u +:+ "Bearer " +:+ v) →
       auth_middleware.getAuthorization cookie (Some h)
       = auth_middleware.undefined)
  ∧ (∀ cookie header,
       cookie = None ∨ cookie = Some "" →
       header = None ∨ header = Some "" →
       auth_middleware.getAuthorization cookie header
       = auth_middleware.null).
Proof.
  assert (∀ s, s ≠ "" → Js.truthy_string (Some s) = true) as Ht.
  { intros s Hs. cbn. by destruct (String.eqb_spec s ""). }
  unfold auth_middleware.getAuthorization.
  split; [|split; [|split]].
  - intros c header Hc. by rewrite Ht.
  - intros cookie t Hcookie Hno.
    assert (Js.truthy_string cookie = false) as ->
      by (by destruct Hcookie as [-> | ->]).
    change ("Bearer " +:+ t)
      with (String "B" (String "e" (String "a" (String "r" (String "e"
             (String "r" (String " " t))))))).
    cbn -[Js.split_on_go]. unfold Js.split_on.
    cbn. by rewrite split_on_absent.
  - intros cookie h Hcookie Hh Hno.
    assert (Js.truthy_string cookie = false) as ->
      by (by destruct Hcookie as [-> | ->]).
    rewrite Ht by done. cbn [default]. unfold Js.split_on.
    by rewrite split_on_absent.
  - intros cookie header Hcookie Hheader.
    by destruct Hcookie as [-> | ->], Hheader as [-> | ->].
Qed.

Lemma getAuthorization_cases_witness :
  auth_middleware.getAuthorization None (Some "Bearer abc.def")
  = auth_middleware.token "abc.def"
  ∧ auth_middleware.getAuthorization (Some "") (Some "Basic abc")
    = auth_middleware.undefined.
Proof.
  destruct getAuthorization_cases as (_ & Hbearer & Hother & _).
  split.
  - apply (Hbearer None "abc.def"); [by left|].
    intros u v E.
    repeat (destruct u as [|? u]; [discriminate E|];
            injection E as _ E).
    destruct u; discriminate E.
  - apply (Hother (Some "") "Basic abc"); [by right | discriminate |].
    intros u v E.
    repeat (destruct u as [|? u]; [discriminate E|];
            injection E as _ E).
    destruct u; discriminate E.
Defined.

Example split_on_examples :
  Js.split_on "Bearer " "Bearer x" = [""; "x"]
  ∧ Js.split_on "Bearer " "Bearer " = [""; ""]
  ∧ Js.split_on "Bearer " "Basic x" = ["Basic x"]
  ∧ Js.split_on "Bearer " "xBearer yBearer z" = ["x"; "y"; "z"].
Proof. repeat split. Qed.

(** * Composition of create and delete, and the list of ignored fields *)

Section CreateDelete.
Variable bcrypt_1 : Bcrypt.

(** X27. Deleting what was just created.  A row created with no [isSystem]
    field, or with [isSystem] 0, is removed by a [delete] of its id, and the
    store is then exactly what it was before the create; a row created with
    any other [isSystem] value cannot be deleted: the [delete] is refused
    with the 409 and the row stays. *)
Theorem create_then_delete data salt cuid now st a st' :
  AdminService.create bcrypt_1 data salt cuid now st = (Ok a, st') →
  (default 0 (AdminCreateInput.isSystem data) = 0 →
     AdminService.delete [Admin.id a] st' = (Ok true, st))
  ∧ (default 0 (AdminCreateInput.isSystem data) ≠ 0 →
       AdminService.delete [Admin.id a] st'
       = (Throw (HttpException 409 "User doesn't exist"), st')).
Proof.
  intros E.
  assert (Admin.isSystem a = default 0 (AdminCreateInput.isSystem data))
    as Hsys.
  { rewrite create_unfold in E. destruct (head _); [done|].
    unfold prisma_admin.create in E. cbn zeta in E.
    destruct (decide _); [done|]. by injection E as <-. }
  apply create_Ok_inv in E as (-> & Hid & _ & Hfresh & _).
  assert (filter (λ x, ¬ AdminService.delete_where [Admin.id a] x) (admins st)
          = admins st) as Hkeep.
  { apply filter_all. intros x Hx [Hin _].
    apply list_elem_of_singleton in Hin. apply (Hfresh x Hx). congruence. }
  rewrite delete_unfold. cbn [admins set_admins].
  destruct st as [ad ro pe mh rh]. unfold set_admins. cbn in *.
  rewrite filter_app, Hkeep. split; intros Hflag.
  - rewrite decide_True.
    + rewrite filter_cons_False, filter_nil, app_nil_r; [done|].
      intros Hn. apply Hn. split; [left | congruence].
    + apply Exists_exists. exists a. split.
      * apply elem_of_app. right. left.
      * split; [left | congruence].
  - rewrite decide_False.
    + rewrite filter_cons_True; [done|]. intros [_ Hz]. congruence.
    + intros (x & [Hx|Hx]%elem_of_app & Hin & Hz)%Exists_exists.
      * apply list_elem_of_singleton in Hin. apply (Hfresh x Hx). congruence.
      * apply list_elem_of_singleton in Hx as ->. congruence.
Qed.

End CreateDelete.

Lemma create_then_delete_witness :
  AdminService.delete ["ck01"]
    (set_admins
       (λ l, (l ++ [Admin.mk "ck01" "dave@example.com" "Dave"
                      "$2b$10$plain-text" 1 0 200 200])%list) Sample.store)
  = (Ok true, Sample.store).
Proof.
  destruct (create_then_delete Sample.bcrypt Sample.newcomer "salt" "ck01"
              200 Sample.store _ _ Sample_create_newcomer) as [Hplain _].
  apply Hplain. reflexivity.
Defined.

Lemma rev_app_append (cur u t : string) :
  String.rev_app cur (u +:+ t) = String.rev_app cur u +:+ t.
Proof.
  revert u. induction cur as [|c cur IH]; intros u; [done|].
  cbn. apply (IH (String c u)).
Qed.

Lemma split_go_nonempty (sep : ascii) (cur s : string) :
  Js.split_go sep cur s ≠ [].
Proof.
  revert cur. induction s as [|c s IH]; intros cur; [done|].
  cbn. destruct (Ascii.eqb c sep); [done | apply IH].
Qed.

Lemma concat_split_go (sep : ascii) (cur s : string) :
  String.concat (String sep "") (Js.split_go sep cur s)
  = String.rev_app cur s.
Proof.
  revert cur. induction s as [|c s IH]; intros cur; [done|].
  cbn [Js.split_go]. destruct (Ascii.eqb_spec c sep) as [->|Hne].
  - pose proof (split_go_nonempty sep "" s) as Hne.
    pose proof (IH "") as Hs.
    destruct (Js.split_go sep "" s) as [|x xs]; [done|].
    cbn [String.concat]. cbn [String.concat] in Hs. rewrite Hs.
    symmetry. apply (rev_app_append cur "" (String sep s)).
  - apply IH.
Qed.

(** X28. The list of ignored fields loses nothing of the parameter: when
    [ignoreGlobal] is supplied, joining the fields handed on with commas
    gives the parameter back, and the list is never empty; an empty
    parameter hands on one field, the empty name. *)
Theorem getUsers_ignoreGlobal_round_trip (J : JsNumber)
    (query : gmap string string) (s : string) :
  query !! "ignoreGlobal" = Some s →
  let fields :=
    AdminController.ignoreGlobal (AdminController.options J query) in
  String.concat "," fields = s
  ∧ fields ≠ []
  ∧ (s = "" → fields = [""]).
Proof.
  intros Hs. unfold AdminController.options. cbn. rewrite Hs.
  split; [|split].
  - unfold Js.split. by rewrite concat_split_go.
  - apply split_go_nonempty.
  - by intros ->.
Qed.

Lemma getUsers_ignoreGlobal_round_trip_witness :
  String.concat ","
    (AdminController.ignoreGlobal
       (AdminController.options Sample.numbers
          {[ "ignoreGlobal" := "email,name" ]}))
  = "email,name".
Proof.
  apply (getUsers_ignoreGlobal_round_trip Sample.numbers
           {[ "ignoreGlobal" := "email,name" ]} "email,name").
  reflexivity.
Defined.
